(** * Legacy context propagation of the Fiber reconciler

    A shallow embedding of the legacy context module (the default export
    taking a [stack] and returning the [LegacyContext] operations) together
    with the properties of its push / invalidate / pop protocol, of masking
    and memoisation, and of the ancestor walk. *)

From stdpp Require Import gmap strings list fin_maps.
From Stdlib Require Import ZArith.

#[local] Set Warnings "-register-all,-clear-no-such-hyp".
#[local] Open Scope string_scope.

(** ** JavaScript values and plain objects *)

(** Object references and instance slots. *)
Abbreviation loc := positive (only parsing).
Abbreviation inst := positive (only parsing).

(** The values found under the keys of a context object.  The module never
    inspects them; it only copies them around.  [JsBuiltin] stands for the
    functions and objects of the language itself, such as
    [Object.prototype.toString]. *)
Inductive JsVal :=
| JsUndefined
| JsNull
| JsBool (b : bool)
| JsNum (z : Z)
| JsStr (s : string)
| JsObj (l : loc)
| JsBuiltin (name : string).

#[global] Instance JsVal_eq_dec : EqDecision JsVal.
Proof. solve_decision. Defined.

(** [v == null]: loose equality with null holds of null and undefined only. *)
Definition looselyNull (v : JsVal) : bool :=
  match v with
  | JsUndefined | JsNull => true
  | _ => false
  end.

(** [!v] is false for these: the truthy values. *)
Definition truthy (v : JsVal) : bool :=
  match v with
  | JsUndefined | JsNull => false
  | JsBool b => b
  | JsNum z => negb (Z.eqb z 0)
  | JsStr s => negb (bool_decide (s = EmptyString))
  | JsObj _ | JsBuiltin _ => true
  end.

(** A plain object: its own enumerable properties, with string names, in
    the order in which [for (key in o)] and a spread enumerate them.
    Every object here is a plain one: its prototype is [Object.prototype],
    from which it inherits the properties of [objectPrototype], none of
    them enumerable.  [__proto__], which [Object.prototype] defines by an
    accessor, is not used as the name of an own property. *)
Abbreviation Obj := (list (string * JsVal)) (only parsing).

(** [for (key in o)] enumerates these. *)
Definition keys (o : Obj) : list string := o.*1.

Fixpoint get_own (k : string) (o : Obj) : option JsVal :=
  match o with
  | [] => None
  | (k', v) :: o' => if decide (k = k') then Some v else get_own k o'
  end.

(** The properties of [Object.prototype] as the language defines them. *)
Definition objectPrototype : Obj :=
  [("constructor", JsBuiltin "Object");
   ("__defineGetter__", JsBuiltin "Object.prototype.__defineGetter__");
   ("__defineSetter__", JsBuiltin "Object.prototype.__defineSetter__");
   ("hasOwnProperty", JsBuiltin "Object.prototype.hasOwnProperty");
   ("__lookupGetter__", JsBuiltin "Object.prototype.__lookupGetter__");
   ("__lookupSetter__", JsBuiltin "Object.prototype.__lookupSetter__");
   ("isPrototypeOf", JsBuiltin "Object.prototype.isPrototypeOf");
   ("propertyIsEnumerable", JsBuiltin "Object.prototype.propertyIsEnumerable");
   ("toString", JsBuiltin "Object.prototype.toString");
   ("valueOf", JsBuiltin "Object.prototype.valueOf");
   ("__proto__", JsBuiltin "Object.prototype");
   ("toLocaleString", JsBuiltin "Object.prototype.toLocaleString")].

(** The name is a property every plain object inherits. *)
Definition inherited (k : string) : bool :=
  bool_decide (k ∈ keys objectPrototype).

(** [o[k]]: the own property, else the inherited one, else undefined. *)
Definition get_prop (k : string) (o : Obj) : JsVal :=
  match get_own k o with
  | Some v => v
  | None => default JsUndefined (get_own k objectPrototype)
  end.

(** [k in o] for an object with the own keys [ownKeys]: the prototype chain
    is searched too. *)
Definition hasProperty (ownKeys : list string) (k : string) : bool :=
  bool_decide (k ∈ ownKeys) || inherited k.

(** The value of a decimal digit. *)
Definition digitValue (c : Ascii.ascii) : option N :=
  let n := Ascii.N_of_ascii c in
  if ((48 <=? n) && (n <=? 57))%N then Some (n - 48)%N else None.

Fixpoint digitsValue (acc : N) (s : string) : option N :=
  match s with
  | EmptyString => Some acc
  | String c rest =>
      match digitValue c with
      | Some d => digitsValue (acc * 10 + d)%N rest
      | None => None
      end
  end.

(** A property name is an array index when it is the decimal numeral,
    without a leading zero, of an integer below 2^32 - 1.  Such names are
    enumerated before all others, in ascending order. *)
Definition arrayIndex (k : string) : option N :=
  match k with
  | EmptyString => None
  | String c rest =>
      if bool_decide (c = Ascii.ascii_of_nat 48)
         && negb (bool_decide (rest = EmptyString))
      then None
      else
        match digitsValue 0 k with
        | Some n => if (n <? 4294967295)%N then Some n else None
        | None => None
        end
  end.

(** The value of an existing own property is replaced in place. *)
Fixpoint replace_own (k : string) (v : JsVal) (o : Obj) : Obj :=
  match o with
  | [] => []
  | (k', v') :: o' =>
      if decide (k = k') then (k, v) :: o' else (k', v') :: replace_own k v o'
  end.

(** A new array index [n] goes before the first name that is not a
    smaller array index. *)
Fixpoint insert_index (n : N) (k : string) (v : JsVal) (o : Obj) : Obj :=
  match o with
  | [] => [(k, v)]
  | (k', v') :: o' =>
      match arrayIndex k' with
      | Some n' =>
          if (n' <? n)%N then (k', v') :: insert_index n k v o'
          else (k, v) :: o
      | None => (k, v) :: o
      end
  end.

(** [o[k] = v] on a plain object: an existing property keeps its place, a
    new array index takes its place among the indices, any other new name
    goes last. *)
Definition set_prop (k : string) (v : JsVal) (o : Obj) : Obj :=
  if bool_decide (k ∈ keys o) then replace_own k v o
  else
    match arrayIndex k with
    | Some n => insert_index n k v o
    | None => (o ++ [(k, v)])%list
    end.

(** [{...target, ...src}] one operand at a time: the properties of [src]
    are written onto [target] in enumeration order. *)
Definition spread (src target : Obj) : Obj :=
  fold_left (fun acc kv => set_prop kv.1 kv.2 acc) src target.

(** fbjs/lib/emptyObject: one shared object without properties. *)
Definition emptyObject : loc := 1%positive.

(** ** Fibers *)

(** The tags of shared/ReactTypeOfWork that the module tests are
    [ClassComponent] and [HostRoot]; every other tag is [OtherWork]. *)
Inductive TypeOfWork := ClassComponent | HostRoot | OtherWork.

#[global] Instance TypeOfWork_eq_dec : EqDecision TypeOfWork.
Proof. solve_decision. Defined.

(** [fiber.type] of a class component: the two declared shapes.  A
    declared shape is an object, given by its own keys in enumeration
    order, or it is absent (undefined or null); a shape that is some other
    value is not a declaration and is outside this model. *)
Record FiberType := mkFiberType {
  contextTypes : option (list string);
  childContextTypes : option (list string)
}.

(** A fiber.  [stateNode] names the slot of the fiber's instance in the
    instance store; an unmapped slot is a null [stateNode] (the instance
    does not exist yet).  [return_] is the parent link [fiber.return]. *)
Inductive Fiber := mkFiber {
  tag : TypeOfWork;
  type : FiberType;
  stateNode : inst;
  return_ : option Fiber
}.

(** The nodes visited when following [return_] from a fiber, the fiber
    itself first. *)
Fixpoint walkUp (node : Fiber) : list Fiber :=
  node :: match return_ node with
          | Some parent => walkUp parent
          | None => []
          end.

(** An instance: the three memo fields the module keeps on it, the
    [getChildContext] method and, on the state node of a host root, the
    root's [context].  [getChildContext] is [None] when
    [typeof instance.getChildContext !== 'function']; otherwise it holds the
    own enumerable properties of what a call returns (none for null or
    undefined).  A method that throws, or that itself calls into the
    module, is not described by this field. *)
Record Instance := mkInstance {
  getChildContext : option Obj;
  context : option loc;
  __reactInternalMemoizedUnmaskedChildContext : option loc;
  __reactInternalMemoizedMaskedChildContext : option loc;
  __reactInternalMemoizedMergedChildContext : option loc
}.

Definition set_memoizedUnmaskedMasked (u m : loc) (i : Instance) : Instance :=
  {| getChildContext := getChildContext i;
     context := context i;
     __reactInternalMemoizedUnmaskedChildContext := Some u;
     __reactInternalMemoizedMaskedChildContext := Some m;
     __reactInternalMemoizedMergedChildContext :=
       __reactInternalMemoizedMergedChildContext i |}.

Definition set_memoizedMerged (m : loc) (i : Instance) : Instance :=
  {| getChildContext := getChildContext i;
     context := context i;
     __reactInternalMemoizedUnmaskedChildContext :=
       __reactInternalMemoizedUnmaskedChildContext i;
     __reactInternalMemoizedMaskedChildContext :=
       __reactInternalMemoizedMaskedChildContext i;
     __reactInternalMemoizedMergedChildContext := Some m |}.

(** ** The stack registers *)

Module FiberStack.

(** Modelled from the spec: the stack primitive ([createCursor], [push],
    [pop] of ReactFiberStack) is passed to the module as its [stack]
    argument and is not part of the sources.  It is the LIFO register of
    the specification: a sequence of (owner, value) frames with one
    current value, the value of the top frame or the cursor's default when
    there is none; [pop] removes the top frame whatever owner it is given.
    [cursor] is what reading the property named [cursor] of the register
    yields: the contract defines no such property, so a new register has
    it undefined and neither [push] nor [pop] writes it. *)
Record StackCursor (T : Type) := mkCursor {
  cursor : JsVal;
  initial : T;
  frames : list (Fiber * T)
}.
Arguments mkCursor {T}.
Arguments cursor {T}.
Arguments initial {T}.
Arguments frames {T}.

Definition createCursor {T} (defaultValue : T) : StackCursor T :=
  mkCursor JsUndefined defaultValue [].

Definition current {T} (c : StackCursor T) : T :=
  match frames c with
  | (_, value) :: _ => value
  | [] => initial c
  end.

Definition push {T} (c : StackCursor T) (value : T) (fiber : Fiber)
  : StackCursor T :=
  mkCursor (cursor c) (initial c) ((fiber, value) :: frames c).

Definition pop {T} (c : StackCursor T) (fiber : Fiber) : StackCursor T :=
  mkCursor (cursor c) (initial c) (tail (frames c)).

Definition depth {T} (c : StackCursor T) : nat := length (frames c).

End FiberStack.
Import FiberStack.

(** ** Module state, effects and errors *)

(** What the module tells its collaborators (diagnostics, timers, the
    instance's callback), most recent first. *)
Inductive Event :=
| EvWarning (format : string) (args : list string)
| EvCheckPropTypes (typeSpecs : option (list string)) (values : Obj)
    (location componentName : string)
| EvSetCurrentPhase (phase : option string)
| EvStartPhaseTimer (fiber : Fiber) (phase : string)
| EvStopPhaseTimer
| EvGetChildContext (instance : inst).

Record State := mkState {
  heap : gmap loc Obj;
  instances : gmap inst Instance;
  contextStackCursor : StackCursor loc;
  didPerformWorkStackCursor : StackCursor bool;
  previousContext : loc;
  warnedAboutMissingGetChildContext : gset string;
  trace : list Event
}.

(** The state right after the module is created.  The record of the
    component names already warned about belongs to the file, not to the
    module it exports: a new module starts with what earlier ones left in
    it. *)
Definition initialState (h : gmap loc Obj) (insts : gmap inst Instance)
  (warned : gset string) : State :=
  mkState h insts (createCursor emptyObject) (createCursor false) emptyObject
    warned [].

Inductive Error :=
| InvariantViolation (format : string) (args : list string)
| TypeError.

Inductive Result (A : Type) :=
| Ok (a : A)
| Throw (e : Error).
Arguments Ok {A}.
Arguments Throw {A}.

(** A call runs on the state and either returns or throws; what it wrote
    before throwing stays written. *)
Definition M (A : Type) : Type := State -> Result A * State.

Definition ret {A} (a : A) : M A := fun s => (Ok a, s).
Definition throw {A} (e : Error) : M A := fun s => (Throw e, s).
Definition bind {A B} (c : M A) (k : A -> M B) : M B :=
  fun s => match c s with
           | (Ok a, s') => k a s'
           | (Throw e, s') => (Throw e, s')
           end.
Definition gets {A} (f : State -> A) : M A := fun s => (Ok (f s), s).
Definition modify (f : State -> State) : M unit := fun s => (Ok tt, f s).
Definition when (b : bool) (c : M unit) : M unit := if b then c else ret tt.

Notation "'let*' x ':=' c 'in' k" := (bind c (fun x => k))
  (at level 10, x name, c at level 100, k at level 200, only parsing).
Notation "c >> k" := (bind c (fun _ => k))
  (at level 100, k at level 200, right associativity, only parsing).

(** The character that delimits the key in an error message. *)
Definition doubleQuote : string := String (Ascii.ascii_of_nat 34) EmptyString.

(** fbjs/lib/invariant *)
Definition invariant (condition : bool) (format : string) (args : list string)
  : M unit :=
  if condition then ret tt else throw (InvariantViolation format args).

Definition emit (e : Event) : M unit :=
  modify (fun s =>
    mkState (heap s) (instances s) (contextStackCursor s)
      (didPerformWorkStackCursor s) (previousContext s)
      (warnedAboutMissingGetChildContext s) (e :: trace s)).

Definition set_contextStackCursor (c : StackCursor loc) (s : State) : State :=
  mkState (heap s) (instances s) c (didPerformWorkStackCursor s)
    (previousContext s) (warnedAboutMissingGetChildContext s) (trace s).

Definition set_didPerformWorkStackCursor (c : StackCursor bool) (s : State)
  : State :=
  mkState (heap s) (instances s) (contextStackCursor s) c
    (previousContext s) (warnedAboutMissingGetChildContext s) (trace s).

Definition set_previousContext (l : loc) (s : State) : State :=
  mkState (heap s) (instances s) (contextStackCursor s)
    (didPerformWorkStackCursor s) l
    (warnedAboutMissingGetChildContext s) (trace s).

Definition set_instances (insts : gmap inst Instance) (s : State)
  : State :=
  mkState (heap s) insts (contextStackCursor s)
    (didPerformWorkStackCursor s) (previousContext s)
    (warnedAboutMissingGetChildContext s) (trace s).

Definition set_heap (h : gmap loc Obj) (s : State) : State :=
  mkState h (instances s) (contextStackCursor s)
    (didPerformWorkStackCursor s) (previousContext s)
    (warnedAboutMissingGetChildContext s) (trace s).

Definition set_warned (w : gset string) (s : State) : State :=
  mkState (heap s) (instances s) (contextStackCursor s)
    (didPerformWorkStackCursor s) (previousContext s) w (trace s).

(** The properties of the object a reference points to. *)
Definition deref (s : State) (l : loc) : Obj := default [] (heap s !! l).

(** A new object: its reference differs from every live one and from the
    shared empty object. *)
Definition newRef (s : State) : loc := fresh ({[emptyObject]} ∪ dom (heap s)).

Definition alloc (o : Obj) : M loc :=
  fun s => let l := newRef s in (Ok l, set_heap (<[l := o]> (heap s)) s).

(** [fiber.stateNode], null while the slot is unmapped. *)
Definition readStateNode (fiber : Fiber) : M (option Instance) :=
  gets (fun s => instances s !! stateNode fiber).

(** Both registers are as they were. *)
Definition sameRegisters (s s' : State) : Prop :=
  contextStackCursor s' = contextStackCursor s
  /\ didPerformWorkStackCursor s' = didPerformWorkStackCursor s.

(** ** The operations of the module *)

Section LegacyContext.

(** [__DEV__], shared/getComponentName and the reconciler's
    [isFiberMounted] come from outside the module. *)
Variable __DEV__ : bool.
Variable getComponentName : Fiber -> option string.
Variable isFiberMounted : Fiber -> bool.

(** [getComponentName(fiber) || 'Unknown'] *)
Definition componentNameOrUnknown (fiber : Fiber) : string :=
  match getComponentName fiber with
  | Some name => if decide (name = EmptyString) then "Unknown" else name
  | None => "Unknown"
  end.

Definition isContextConsumer (fiber : Fiber) : bool :=
  bool_decide (tag fiber = ClassComponent)
  && bool_decide (contextTypes (type fiber) ≠ None).

Definition isContextProvider (fiber : Fiber) : bool :=
  bool_decide (tag fiber = ClassComponent)
  && bool_decide (childContextTypes (type fiber) ≠ None).

Definition getUnmaskedContext (workInProgress : Fiber) (s : State) : loc :=
  let hasOwnContext := isContextProvider workInProgress in
  if hasOwnContext then previousContext s
  else current (contextStackCursor s).

Definition cacheContext (workInProgress : Fiber)
  (unmaskedContext maskedContext : loc) : M unit :=
  let* instance := readStateNode workInProgress in
  match instance with
  | None => throw TypeError
  | Some i =>
      modify (fun s =>
        set_instances
          (<[stateNode workInProgress :=
               set_memoizedUnmaskedMasked unmaskedContext maskedContext i]>
             (instances s)) s)
  end.

(** The loop of [getMaskedContext]: [context[key] = unmaskedContext[key]]
    for each key of [contextTypes], starting from [{}]. *)
Definition maskContext (contextTypes : list string) (unmasked : Obj) : Obj :=
  fold_left (fun context key => set_prop key (get_prop key unmasked) context)
    contextTypes [].

(** The memoised pair of the instance is for this very unmasked object. *)
Definition memoizedFor (instance : option Instance) (unmaskedContext : loc)
  : bool :=
  match instance with
  | Some i =>
      bool_decide
        (__reactInternalMemoizedUnmaskedChildContext i = Some unmaskedContext)
  | None => false
  end.

Definition getMaskedContext (workInProgress : Fiber) (unmaskedContext : loc)
  : M (option loc) :=
  match contextTypes (type workInProgress) with
  | None => ret (Some emptyObject)
  | Some contextTypes =>
      let* instance := readStateNode workInProgress in
      if memoizedFor instance unmaskedContext then
        ret (instance ≫= __reactInternalMemoizedMaskedChildContext)
      else
        let* unmasked := gets (fun s => deref s unmaskedContext) in
        let masked := maskContext contextTypes unmasked in
        let* context := alloc masked in
        when __DEV__
          (emit (EvCheckPropTypes (Some contextTypes) masked "context"
                   (componentNameOrUnknown workInProgress))) >>
        when (bool_decide (is_Some instance))
          (cacheContext workInProgress unmaskedContext context) >>
        ret (Some context)
  end.

Definition hasContextChanged (s : State) : bool :=
  current (didPerformWorkStackCursor s).

Definition popBoth (fiber : Fiber) (s : State) : State :=
  let s := set_didPerformWorkStackCursor
             (pop (didPerformWorkStackCursor s) fiber) s in
  set_contextStackCursor (pop (contextStackCursor s) fiber) s.

Definition popContextProvider (fiber : Fiber) : M unit :=
  if negb (isContextProvider fiber) then ret tt
  else modify (popBoth fiber).

Definition popTopLevelContextObject (fiber : Fiber) : M unit :=
  modify (popBoth fiber).

Definition pushTopLevelContextObject (fiber : Fiber) (context : loc)
  (didChange : bool) : M unit :=
  let* found := gets (fun s => cursor (contextStackCursor s)) in
  invariant (looselyNull found)
    ("Unexpected context found on stack. " ++
     "This error is likely caused by a bug in React. Please file an issue.")
    [] >>
  modify (fun s =>
    set_contextStackCursor (push (contextStackCursor s) context fiber) s) >>
  modify (fun s =>
    set_didPerformWorkStackCursor
      (push (didPerformWorkStackCursor s) didChange fiber) s).

(** The loop of [processChildContext] over the keys of the child context:
    [contextKey in childContextTypes] throws a TypeError when there is no
    such object, and finds inherited names as well as declared ones. *)
Fixpoint checkChildContextKeys (fiber : Fiber)
  (childContextTypes : option (list string)) (contextKeys : list string)
  : M unit :=
  match contextKeys with
  | [] => ret tt
  | contextKey :: rest =>
      match childContextTypes with
      | None => throw TypeError
      | Some shape =>
          invariant (hasProperty shape contextKey)
            ("%s.getChildContext(): key " ++ doubleQuote ++ "%s" ++ doubleQuote
             ++ " is not defined in childContextTypes.")
            [componentNameOrUnknown fiber; contextKey] >>
          checkChildContextKeys fiber childContextTypes rest
      end
  end.

(** [warnedAboutMissingGetChildContext[componentName]] as a condition.
    The record is a plain object whose own properties, all [true], are the
    names in [warned]; an inherited name reads as the inherited value. *)
Definition warnedAbout (warned : gset string) (componentName : string)
  : bool :=
  bool_decide (componentName ∈ warned)
  || from_option truthy false (get_own componentName objectPrototype).

(** The branch of [processChildContext] for an instance without a
    [getChildContext] method: in development, one warning per component
    name. *)
Definition warnMissingGetChildContext (fiber : Fiber) : M unit :=
  when __DEV__
    (let componentName := componentNameOrUnknown fiber in
     let* warned := gets warnedAboutMissingGetChildContext in
     if warnedAbout warned componentName then ret tt
     else
       modify (fun s =>
         set_warned ({[componentName]} ∪ warnedAboutMissingGetChildContext s) s) >>
       emit (EvWarning
               ("%s.childContextTypes is specified but there is no getChildContext() method "
                ++ "on the instance. You can either define getChildContext() on %s or remove "
                ++ "childContextTypes from it.")
               [componentName; componentName])).

Definition processChildContext (fiber : Fiber) (parentContext : loc) : M loc :=
  let* instance := readStateNode fiber in
  let childContextTypes := childContextTypes (type fiber) in
  match instance with
  | None => throw TypeError
  | Some i =>
      match getChildContext i with
      | None =>
          warnMissingGetChildContext fiber >>
          ret parentContext
      | Some childContext =>
          when __DEV__ (emit (EvSetCurrentPhase (Some "getChildContext"))) >>
          emit (EvStartPhaseTimer fiber "getChildContext") >>
          emit (EvGetChildContext (stateNode fiber)) >>
          emit EvStopPhaseTimer >>
          when __DEV__ (emit (EvSetCurrentPhase None)) >>
          checkChildContextKeys fiber childContextTypes (keys childContext) >>
          when __DEV__
            (emit (EvCheckPropTypes childContextTypes childContext
                     "child context" (componentNameOrUnknown fiber))) >>
          let* parent := gets (fun s => deref s parentContext) in
          alloc (spread childContext (spread parent []))
      end
  end.

Definition pushContextProvider (workInProgress : Fiber) : M bool :=
  if negb (isContextProvider workInProgress) then ret false
  else
    let* instance := readStateNode workInProgress in
    let memoizedMergedChildContext :=
      default emptyObject
        (instance ≫= __reactInternalMemoizedMergedChildContext) in
    modify (fun s => set_previousContext (current (contextStackCursor s)) s) >>
    modify (fun s =>
      set_contextStackCursor
        (push (contextStackCursor s) memoizedMergedChildContext
           workInProgress) s) >>
    modify (fun s =>
      set_didPerformWorkStackCursor
        (push (didPerformWorkStackCursor s)
           (current (didPerformWorkStackCursor s)) workInProgress) s) >>
    ret true.

(** [instance.__reactInternalMemoizedMergedChildContext = mergedContext] *)
Definition storeMerged (workInProgress : Fiber) (mergedContext : loc)
  : M unit :=
  modify (fun s =>
    set_instances
      (alter (set_memoizedMerged mergedContext) (stateNode workInProgress)
         (instances s)) s).

Definition invalidateContextProvider (workInProgress : Fiber)
  (didChange : bool) : M unit :=
  let* instance := readStateNode workInProgress in
  invariant (bool_decide (is_Some instance))
    ("Expected to have an instance by this point. " ++
     "This error is likely caused by a bug in React. Please file an issue.")
    [] >>
  if didChange then
    let* previous := gets previousContext in
    let* mergedContext := processChildContext workInProgress previous in
    storeMerged workInProgress mergedContext >>
    modify (fun s =>
      set_didPerformWorkStackCursor
        (pop (didPerformWorkStackCursor s) workInProgress) s) >>
    modify (fun s =>
      set_contextStackCursor
        (pop (contextStackCursor s) workInProgress) s) >>
    modify (fun s =>
      set_contextStackCursor
        (push (contextStackCursor s) mergedContext workInProgress) s) >>
    modify (fun s =>
      set_didPerformWorkStackCursor
        (push (didPerformWorkStackCursor s) didChange workInProgress) s)
  else
    modify (fun s =>
      set_didPerformWorkStackCursor
        (pop (didPerformWorkStackCursor s) workInProgress) s) >>
    modify (fun s =>
      set_didPerformWorkStackCursor
        (push (didPerformWorkStackCursor s) didChange workInProgress) s).

(** The loop of [findCurrentUnmaskedContext]; reading a field of a null
    [stateNode] throws a TypeError. *)
Fixpoint findFrom (node : Fiber) : M (option loc) :=
  if bool_decide (tag node = HostRoot) then
    let* root := readStateNode node in
    match root with
    | Some r => ret (context r)
    | None => throw TypeError
    end
  else if isContextProvider node then
    let* instance := readStateNode node in
    match instance with
    | Some i => ret (__reactInternalMemoizedMergedChildContext i)
    | None => throw TypeError
    end
  else
    match return_ node with
    | Some parent => findFrom parent
    | None =>
        throw (InvariantViolation
                 ("Found unexpected detached subtree parent. " ++
                  "This error is likely caused by a bug in React. Please file an issue.")
                 [])
    end.

Definition findCurrentUnmaskedContext (fiber : Fiber) : M (option loc) :=
  invariant (isFiberMounted fiber && bool_decide (tag fiber = ClassComponent))
    ("Expected subtree parent to be a mounted class component. " ++
     "This error is likely caused by a bug in React. Please file an issue.")
    [] >>
  findFrom fiber.

(** The walk of [findCurrentUnmaskedContext] passes over a node that is
    neither the root nor a provider. *)
Definition passedOver (node : Fiber) : Prop :=
  isContextProvider node = false /\ tag node ≠ HostRoot.

(** One call of an operation that can write to the module's state. *)
Inductive Op :=
| CacheContext (workInProgress : Fiber) (unmaskedContext maskedContext : loc)
| GetMaskedContext (workInProgress : Fiber) (unmaskedContext : loc)
| PopContextProvider (fiber : Fiber)
| PopTopLevelContextObject (fiber : Fiber)
| PushTopLevelContextObject (fiber : Fiber) (context : loc) (didChange : bool)
| ProcessChildContext (fiber : Fiber) (parentContext : loc)
| PushContextProvider (workInProgress : Fiber)
| InvalidateContextProvider (workInProgress : Fiber) (didChange : bool)
| FindCurrentUnmaskedContext (fiber : Fiber).

(** The state a call leaves behind, whether it returned or threw. *)
Definition after (op : Op) (s : State) : State :=
  match op with
  | CacheContext w u m => (cacheContext w u m s).2
  | GetMaskedContext w u => (getMaskedContext w u s).2
  | PopContextProvider f => (popContextProvider f s).2
  | PopTopLevelContextObject f => (popTopLevelContextObject f s).2
  | PushTopLevelContextObject f c d => (pushTopLevelContextObject f c d s).2
  | ProcessChildContext f p => (processChildContext f p s).2
  | PushContextProvider w => (pushContextProvider w s).2
  | InvalidateContextProvider w d => (invalidateContextProvider w d s).2
  | FindCurrentUnmaskedContext f => (findCurrentUnmaskedContext f s).2
  end.

Definition afterAll (ops : list Op) (s : State) : State :=
  fold_left (fun s op => after op s) ops s.

End LegacyContext.

(** ** Traversal discipline and call counts *)

(** The frames a sequence of calls has opened and not yet closed.  With
    [opened] such frames before the call, [stepDepth] is their number after
    it, and [None] when the call would pop or replace a frame that the
    sequence did not open itself. *)
Definition stepDepth (opened : nat) (op : Op) : option nat :=
  match op with
  | PushContextProvider w =>
      Some (if isContextProvider w then S opened else opened)
  | PushTopLevelContextObject _ _ _ => Some (S opened)
  | PopContextProvider f =>
      if isContextProvider f then
        match opened with S k => Some k | O => None end
      else Some opened
  | PopTopLevelContextObject _ =>
      match opened with S k => Some k | O => None end
  | InvalidateContextProvider _ _ =>
      match opened with S _ => Some opened | O => None end
  | CacheContext _ _ _ | GetMaskedContext _ _ | ProcessChildContext _ _
  | FindCurrentUnmaskedContext _ => Some opened
  end.

Fixpoint depthAfter (opened : nat) (ops : list Op) : option nat :=
  match ops with
  | [] => Some opened
  | op :: rest =>
      match stepDepth opened op with
      | Some k => depthAfter k rest
      | None => None
      end
  end.

(** A register [c] is the register [c0] with [k] more frames on top. *)
Definition framesAbove {T} (k : nat) (c0 c : StackCursor T) : Prop :=
  cursor c = cursor c0 /\ initial c = initial c0
  /\ drop k (frames c) = frames c0
  /\ length (frames c) = k + length (frames c0).

(** How often the trace records a call of [getChildContext] on the
    instance in slot [j]. *)
Fixpoint callsOfGetChildContext (j : inst) (tr : list Event) : nat :=
  match tr with
  | [] => 0
  | EvGetChildContext i :: rest =>
      (if decide (i = j) then 1 else 0) + callsOfGetChildContext j rest
  | _ :: rest => callsOfGetChildContext j rest
  end.

(** The instance in slot [j] exists and has a [getChildContext] method. *)
Definition hasGetChildContext (s : State) (j : inst) : bool :=
  match instances s !! j with
  | Some i => bool_decide (getChildContext i ≠ None)
  | None => false
  end.

(** The calls that reach [instance.getChildContext()] on slot [j]. *)
Definition invokesGetChildContext (s : State) (op : Op) (j : inst) : bool :=
  match op with
  | ProcessChildContext f _ | InvalidateContextProvider f true =>
      bool_decide (stateNode f = j) && hasGetChildContext s j
  | _ => false
  end.

(** What a state holds besides its diagnostics (the trace and the set of
    component names already warned about). *)
Definition observable (s : State)
  : gmap loc Obj * gmap inst Instance * StackCursor loc * StackCursor bool
    * loc :=
  (heap s, instances s, contextStackCursor s, didPerformWorkStackCursor s,
   previousContext s).

(** The heap [h'] is [h], or [h] with one object added at [l]. *)
Definition grownBy (h h' : gmap loc Obj) (l : loc) : Prop :=
  h' = h ∨ exists o, h' = <[l := o]> h.

(** ** A small tree

    The components of the demo: a message list that provides
    [color: "purple"], a test component nested in it that provides
    [color: "red"], and under them a message holding a button that consumes
    [color]. *)

Definition noShapes : FiberType := mkFiberType None None.
Definition providesColor : FiberType := mkFiberType None (Some ["color"]).
Definition consumesColor : FiberType := mkFiberType (Some ["color"]) None.

Definition hostRootFiber : Fiber := mkFiber HostRoot noShapes 1 None.
Definition appFiber : Fiber :=
  mkFiber ClassComponent noShapes 2 (Some hostRootFiber).
Definition messageListFiber : Fiber :=
  mkFiber ClassComponent providesColor 3 (Some appFiber).
Definition testFiber : Fiber :=
  mkFiber ClassComponent providesColor 4 (Some messageListFiber).
Definition messageFiber : Fiber :=
  mkFiber ClassComponent noShapes 5 (Some testFiber).
Definition buttonFiber : Fiber :=
  mkFiber ClassComponent consumesColor 6 (Some messageFiber).
(** A button whose instance has not been created yet. *)
Definition newButtonFiber : Fiber :=
  mkFiber ClassComponent consumesColor 7 (Some messageFiber).
(** A provider whose [getChildContext] returns a key it does not declare. *)
Definition rogueFiber : Fiber :=
  mkFiber ClassComponent providesColor 8 (Some appFiber).

Definition plainInstance : Instance := mkInstance None None None None None.
Definition messageListInstance : Instance :=
  mkInstance (Some [("color", JsStr "purple")]) None None None
    (Some 10%positive).
Definition testInstance : Instance :=
  mkInstance (Some [("color", JsStr "red")]) None None None
    (Some 11%positive).
Definition rogueInstance : Instance :=
  mkInstance (Some [("color", JsStr "red"); ("size", JsNum 3)]) None None None
    None.
Definition rootInstance : Instance :=
  mkInstance None (Some emptyObject) None None None.
(** An instance whose [getChildContext] returns, besides the declared key,
    a key named like a method every object inherits. *)
Definition shadowingInstance : Instance :=
  mkInstance (Some [("color", JsStr "red"); ("toString", JsStr "here")])
    None None None None.

Definition demoInstances : gmap inst Instance :=
  list_to_map
    [(1%positive, rootInstance); (2%positive, plainInstance);
     (3%positive, messageListInstance); (4%positive, testInstance);
     (5%positive, plainInstance); (6%positive, plainInstance);
     (8%positive, rogueInstance); (12%positive, shadowingInstance)].

Definition demoHeap : gmap loc Obj :=
  list_to_map
    [(emptyObject, []);
     (10%positive, [("color", JsStr "purple")]);
     (11%positive, [("color", JsStr "red")])].

Definition demoState : State := initialState demoHeap demoInstances ∅.

Definition demoName (fiber : Fiber) : option string :=
  match stateNode fiber with
  | 2%positive => Some "App"
  | 3%positive => Some "MessageList"
  | 4%positive | 8%positive => Some "Test"
  | 5%positive => Some "Message"
  | 6%positive | 7%positive => Some "Button"
  | _ => None
  end.

Definition demoMounted (fiber : Fiber) : bool :=
  bool_decide (stateNode fiber ≠ 7%positive).

(** The demo after the root was pushed with [didChange = true]. *)
Definition rootPushed : State :=
  after true demoName demoMounted
    (PushTopLevelContextObject hostRootFiber emptyObject true) demoState.

(** The demo once the traversal is inside the message list: the root was
    pushed with [didChange = false], the message list was pushed and
    invalidated. *)
Definition insideMessageList : State :=
  afterAll true demoName demoMounted
    [PushTopLevelContextObject hostRootFiber emptyObject false;
     PushContextProvider messageListFiber;
     InvalidateContextProvider messageListFiber true] demoState.


(** A provider whose instance has no [getChildContext] method. *)
Definition muteProviderFiber : Fiber :=
  mkFiber ClassComponent providesColor 5 (Some appFiber).

(** A provider that declares and returns two keys, and a provider whose
    instance does not exist, with a mounted button under it. *)
Definition wideProviderFiber : Fiber :=
  mkFiber ClassComponent (mkFiberType None (Some ["color"; "size"])) 8
    (Some appFiber).
Definition pendingProviderFiber : Fiber :=
  mkFiber ClassComponent providesColor 9 (Some appFiber).
Definition pendingButtonFiber : Fiber :=
  mkFiber ClassComponent consumesColor 6 (Some pendingProviderFiber).

(** A whole visit of the demo tree: root, message list, test component
    and back. *)
Definition demoVisit : list Op :=
  [PushTopLevelContextObject hostRootFiber emptyObject false;
   PushContextProvider messageListFiber;
   InvalidateContextProvider messageListFiber true;
   PushContextProvider testFiber;
   InvalidateContextProvider testFiber false;
   GetMaskedContext buttonFiber 11%positive;
   PopContextProvider testFiber;
   PopContextProvider messageListFiber;
   PopTopLevelContextObject hostRootFiber].

(** * Properties *)

(** Runs the next monadic step of a goal: sequencing, reading the state or
    an instance slot, and invariant checks are replaced by what they
    compute. *)
Ltac step_M := unfold bind, readStateNode, gets, invariant.

(** ** Fibers and plain objects *)

(** Induction along the parent link. *)
Lemma Fiber_return_ind (P : Fiber -> Prop)
  (IH : forall f, (forall p, return_ f = Some p -> P p) -> P f) :
  forall f, P f.
Proof.
  fix rec 1. intros f. apply IH. destruct f as [t ty sn [p|]]; simpl.
  - intros q [= <-]. apply rec.
  - intros q [=].
Qed.

Lemma get_own_None k (o : Obj) : k ∉ keys o -> get_own k o = None.
Proof.
  unfold keys. induction o as [|[k' v] o IH]; simpl; [done|].
  intros Hk. apply not_elem_of_cons in Hk as [Hne Hk].
  destruct (decide (k = k')); [done|]. by apply IH.
Qed.

Lemma get_own_is_Some k (o : Obj) : k ∈ keys o <-> is_Some (get_own k o).
Proof.
  unfold keys. induction o as [|[k' v] o IH]; simpl.
  - split; [by intros ?%elem_of_nil | by intros [? [=]]].
  - destruct (decide (k = k')) as [->|Hne].
    + split; [eauto | intros _; left].
    + rewrite elem_of_cons, IH. naive_solver.
Qed.

Lemma get_own_app k (o1 o2 : Obj) :
  get_own k (o1 ++ o2)%list
  = match get_own k o1 with
    | Some v => Some v
    | None => get_own k o2
    end.
Proof.
  induction o1 as [|[k0 v0] o1 IH]; simpl; [done|].
  by destruct (decide (k = k0)).
Qed.

Lemma get_own_replace_own k k0 v (o : Obj) :
  k0 ∈ keys o ->
  get_own k (replace_own k0 v o)
  = if decide (k = k0) then Some v else get_own k o.
Proof.
  unfold keys. induction o as [|[k1 v1] o IH]; csimpl.
  - by intros ?%elem_of_nil.
  - intros Hin. destruct (decide (k0 = k1)) as [->|Hne]; simpl.
    + by destruct (decide (k = k1)).
    + apply elem_of_cons in Hin as [?|Hin]; [done|].
      rewrite IH by done.
      destruct (decide (k = k1)) as [->|?]; [|done].
      by rewrite decide_False by done.
Qed.

Lemma get_own_insert_index k n k0 v (o : Obj) :
  k0 ∉ keys o ->
  get_own k (insert_index n k0 v o)
  = if decide (k = k0) then Some v else get_own k o.
Proof.
  unfold keys. induction o as [|[k1 v1] o IH]; csimpl; [done|].
  intros [Hne Hout]%not_elem_of_cons.
  destruct (arrayIndex k1) as [n1|]; [|done].
  destruct (n1 <? n)%N; [|done]. simpl. rewrite IH by done.
  destruct (decide (k = k1)) as [->|?]; [|done].
  by rewrite decide_False by done.
Qed.

Lemma get_own_set_prop k k' v (o : Obj) :
  get_own k (set_prop k' v o)
  = if decide (k = k') then Some v else get_own k o.
Proof.
  unfold set_prop. destruct (bool_decide (k' ∈ keys o)) eqn:Hin.
  - apply bool_decide_eq_true_1 in Hin. by apply get_own_replace_own.
  - apply bool_decide_eq_false_1 in Hin.
    destruct (arrayIndex k') as [n|]; [by apply get_own_insert_index|].
    rewrite get_own_app. simpl.
    destruct (decide (k = k')) as [->|?].
    + by rewrite get_own_None.
    + by destruct (get_own k o).
Qed.

Lemma keys_replace_own k v (o : Obj) : keys (replace_own k v o) = keys o.
Proof.
  unfold keys. induction o as [|[k0 v0] o IH]; csimpl; [done|].
  destruct (decide (k = k0)) as [->|?]; csimpl; [done|]. by rewrite IH.
Qed.

Lemma elem_of_keys_insert_index x n k v (o : Obj) :
  x ∈ keys (insert_index n k v o) <-> x = k ∨ x ∈ keys o.
Proof.
  unfold keys. induction o as [|[k0 v0] o IH]; csimpl.
  - by rewrite elem_of_cons.
  - destruct (arrayIndex k0) as [n0|]; [|by rewrite !fmap_cons, elem_of_cons].
    destruct (n0 <? n)%N; [|by rewrite !fmap_cons, elem_of_cons].
    csimpl. rewrite !elem_of_cons, IH. naive_solver.
Qed.

Lemma elem_of_keys_set_prop x k v (o : Obj) :
  x ∈ keys (set_prop k v o) <-> x = k ∨ x ∈ keys o.
Proof.
  unfold set_prop. destruct (bool_decide (k ∈ keys o)) eqn:Hin.
  - apply bool_decide_eq_true_1 in Hin. rewrite keys_replace_own.
    naive_solver.
  - destruct (arrayIndex k) as [n|]; [apply elem_of_keys_insert_index|].
    unfold keys. rewrite fmap_app, elem_of_app. csimpl.
    rewrite list_elem_of_singleton. naive_solver.
Qed.

(** A name that is not an array index keeps its place when it exists and
    goes last when it is new. *)
Lemma keys_set_prop k v (o : Obj) :
  arrayIndex k = None ->
  keys (set_prop k v o) = if bool_decide (k ∈ keys o) then keys o
                          else (keys o ++ [k])%list.
Proof.
  intros Hk. unfold set_prop. rewrite Hk.
  destruct (bool_decide (k ∈ keys o)); [apply keys_replace_own|].
  unfold keys. by rewrite fmap_app.
Qed.

(** Spreading an object whose keys are distinct: its own properties win,
    the others are kept from the target. *)
Lemma get_own_spread k (src target : Obj) :
  NoDup (keys src) ->
  get_own k (spread src target)
  = match get_own k src with
    | Some v => Some v
    | None => get_own k target
    end.
Proof.
  unfold spread, keys. revert target.
  induction src as [|[k0 v0] src IH]; intros target Hnd; simpl; [done|].
  apply NoDup_cons in Hnd as [Hfresh Hnd].
  rewrite IH by done. rewrite get_own_set_prop.
  destruct (decide (k = k0)) as [->|Hne]; [|done].
  by rewrite (get_own_None k0 src).
Qed.

Lemma elem_of_keys_spread k (src target : Obj) :
  k ∈ keys (spread src target) <-> k ∈ keys src ∨ k ∈ keys target.
Proof.
  unfold spread. revert target.
  induction src as [|[k0 v0] src IH]; intros target; simpl.
  - unfold keys at 2; csimpl. rewrite elem_of_nil. naive_solver.
  - rewrite IH. unfold keys at 2 3; csimpl. fold (keys src).
    rewrite elem_of_keys_set_prop, elem_of_cons. naive_solver.
Qed.

(** The masked object has a property for each declared key, read from the
    unmasked object. *)
Lemma get_own_maskContext_aux k (unmasked : Obj) (declared : list string)
  (acc : Obj) :
  get_own k
    (fold_left (fun context key => set_prop key (get_prop key unmasked) context)
       declared acc)
  = if bool_decide (k ∈ declared) then Some (get_prop k unmasked)
    else get_own k acc.
Proof.
  revert acc. induction declared as [|k0 ks IH]; intros acc; simpl; [done|].
  rewrite IH, get_own_set_prop.
  destruct (decide (k = k0)) as [->|Hne].
  - rewrite (bool_decide_eq_true_2 (k0 ∈ k0 :: ks)) by left.
    by destruct (bool_decide (k0 ∈ ks)).
  - destruct (bool_decide (k ∈ ks)) eqn:E.
    + apply bool_decide_eq_true_1 in E.
      rewrite bool_decide_eq_true_2; [done | by right].
    + apply bool_decide_eq_false_1 in E.
      rewrite bool_decide_eq_false_2; [done|].
      intros [?|?]%elem_of_cons; done.
Qed.

Lemma get_own_maskContext k (declared : list string) (unmasked : Obj) :
  get_own k (maskContext declared unmasked)
  = if bool_decide (k ∈ declared) then Some (get_prop k unmasked) else None.
Proof. unfold maskContext. by rewrite get_own_maskContext_aux. Qed.

(** Array indices and the enumeration order, on small objects. *)
Example arrayIndex_examples :
  arrayIndex "0" = Some 0%N /\ arrayIndex "12" = Some 12%N
  /\ arrayIndex "012" = None /\ arrayIndex "color" = None
  /\ arrayIndex "4294967294" = Some 4294967294%N
  /\ arrayIndex "4294967295" = None /\ arrayIndex "1.5" = None.
Proof. vm_compute. by repeat split. Qed.

Example spread_order_examples :
  keys (spread [("2", JsNull); ("size", JsNum 3); ("color", JsStr "red")]
          [("10", JsNull); ("color", JsStr "purple")])
  = ["2"; "10"; "color"; "size"]
  /\ get_prop "color"
       (spread [("color", JsStr "red")] [("color", JsStr "purple")])
     = JsStr "red"
  /\ get_prop "toString" [("color", JsStr "red")]
     = JsBuiltin "Object.prototype.toString"
  /\ get_prop "size" [("color", JsStr "red")] = JsUndefined
  /\ hasProperty ["color"] "constructor" = true
  /\ hasProperty ["color"] "size" = false.
Proof. vm_compute. by repeat split. Qed.

(** ** The registers *)

Lemma pop_push {T} (c : StackCursor T) v f g : pop (push c v f) g = c.
Proof. by destruct c. Qed.

Lemma current_push {T} (c : StackCursor T) v f : current (push c v f) = v.
Proof. done. Qed.

Lemma frames_push {T} (c : StackCursor T) v f :
  frames (push c v f) = (f, v) :: frames c.
Proof. done. Qed.

Lemma frames_pop {T} (c : StackCursor T) f :
  frames (pop c f) = tail (frames c).
Proof. done. Qed.

Lemma push_pop_push {T} (c : StackCursor T) v w f g h :
  push (pop (push c v f) g) w h = push c w h.
Proof. by rewrite pop_push. Qed.

(** ** The operations *)

Section Properties.

Variable dev : bool.
Variable getComponentName : Fiber -> option string.
Variable isFiberMounted : Fiber -> bool.

#[local] Abbreviation getMaskedContext := (getMaskedContext dev getComponentName).
#[local] Abbreviation processChildContext :=
  (processChildContext dev getComponentName).
#[local] Abbreviation invalidateContextProvider :=
  (invalidateContextProvider dev getComponentName).
#[local] Abbreviation findCurrentUnmaskedContext :=
  (findCurrentUnmaskedContext isFiberMounted).
#[local] Abbreviation checkChildContextKeys :=
  (checkChildContextKeys getComponentName).
#[local] Abbreviation warnMissingGetChildContext :=
  (warnMissingGetChildContext dev getComponentName).
#[local] Abbreviation after := (after dev getComponentName isFiberMounted).
#[local] Abbreviation afterAll := (afterAll dev getComponentName isFiberMounted).

Lemma isContextProvider_shape fiber :
  isContextProvider fiber = true ->
  tag fiber = ClassComponent
  /\ exists shape, childContextTypes (type fiber) = Some shape.
Proof.
  unfold isContextProvider. intros [Ht Hc]%andb_prop.
  apply bool_decide_eq_true_1 in Ht, Hc. split; [done|].
  destruct (childContextTypes (type fiber)); [eauto | done].
Qed.

(** Every key is found by [in]: the key check passes and writes
    nothing. *)
Lemma checkChildContextKeys_found fiber shape ks s :
  Forall (fun k => hasProperty shape k = true) ks ->
  checkChildContextKeys fiber (Some shape) ks s = (Ok tt, s).
Proof.
  induction 1 as [|k ks Hk _ IH]; simpl; [done|].
  step_M. rewrite Hk. apply IH.
Qed.

(** In particular when every key is declared. *)
Lemma checkChildContextKeys_declared fiber shape ks s :
  Forall (fun k => k ∈ shape) ks ->
  checkChildContextKeys fiber (Some shape) ks s = (Ok tt, s).
Proof.
  intros Hall. apply checkChildContextKeys_found.
  eapply Forall_impl; [exact Hall|]. intros k Hk.
  unfold hasProperty. by rewrite bool_decide_eq_true_2.
Qed.

(** The key check stops at the first key that [in] does not find and
    reports it together with the component's name. *)
Lemma checkChildContextKeys_not_found fiber shape before key rest s :
  Forall (fun k => hasProperty shape k = true) before ->
  hasProperty shape key = false ->
  checkChildContextKeys fiber (Some shape) (before ++ key :: rest)%list s
  = (Throw
       (InvariantViolation
          ("%s.getChildContext(): key " ++ doubleQuote ++ "%s" ++ doubleQuote
           ++ " is not defined in childContextTypes.")
          [componentNameOrUnknown getComponentName fiber; key]), s).
Proof.
  intros Hbefore Hkey. induction Hbefore as [|k ks Hk _ IH]; simpl.
  - step_M. by rewrite Hkey.
  - step_M. rewrite Hk. apply IH.
Qed.

(** A list of keys is all found, or splits at the first key that is
    not. *)
Lemma first_not_found (shape ks : list string) :
  Forall (fun k => hasProperty shape k = true) ks
  ∨ exists before key rest,
      ks = (before ++ key :: rest)%list
      /\ Forall (fun k => hasProperty shape k = true) before
      /\ hasProperty shape key = false.
Proof.
  induction ks as [|k ks [IH|(before & key & rest & -> & Hb & Hk)]].
  - by left.
  - destruct (hasProperty shape k) eqn:Hfound.
    + left. by constructor.
    + right. exists [], k, ks. by repeat split.
  - destruct (hasProperty shape k) eqn:Hfound.
    + right. exists (k :: before), key, rest. repeat split; [|done].
      by constructor.
    + right. exists [], k, (before ++ key :: rest)%list. by repeat split.
Qed.


(** The warning branch only touches the diagnostics. *)
Lemma warnMissingGetChildContext_spec fiber s :
  exists s', warnMissingGetChildContext fiber s = (Ok tt, s')
    /\ heap s' = heap s /\ instances s' = instances s
    /\ sameRegisters s s' /\ previousContext s' = previousContext s
    /\ (trace s' = trace s ∨ exists f a, trace s' = EvWarning f a :: trace s).
Proof.
  unfold warnMissingGetChildContext, when, bind, gets, modify, emit, ret.
  destruct dev; [|eexists; repeat split; by left].
  destruct (warnedAbout _ _); simpl.
  - eexists; repeat split; by left.
  - eexists; repeat split; simpl; eauto.
Qed.

(** The key check reads nothing and writes nothing. *)
Lemma checkChildContextKeys_pure fiber declared ks :
  exists r, forall s, checkChildContextKeys fiber declared ks s = (r, s).
Proof.
  induction ks as [|k ks [r IH]]; simpl; [by eexists|].
  destruct declared as [shape|]; [|by eexists].
  step_M. destruct (hasProperty shape k); simpl.
  - by exists r.
  - by eexists.
Qed.

(** What [processChildContext] does for an instance with the method: the
    outcome [r] of the key check decides between throwing and allocating
    the merged object. *)
Lemma processChildContext_callable fiber parentContext s i childContext r :
  instances s !! stateNode fiber = Some i ->
  getChildContext i = Some childContext ->
  (forall s0, checkChildContextKeys fiber (childContextTypes (type fiber))
                (keys childContext) s0 = (r, s0)) ->
  exists s',
    processChildContext fiber parentContext s
    = (match r with Ok _ => Ok (newRef s) | Throw e => Throw e end, s')
    /\ heap s'
       = match r with
         | Ok _ =>
             <[newRef s :=
                 spread childContext (spread (deref s parentContext) [])]>
               (heap s)
         | Throw _ => heap s
         end
    /\ instances s' = instances s
    /\ sameRegisters s s' /\ previousContext s' = previousContext s.
Proof.
  intros Hi Hc Hr.
  unfold processChildContext, bind at 1, readStateNode, gets. rewrite Hi, Hc.
  unfold when, bind, emit, modify, ret, alloc, gets, newRef, deref.
  destruct dev; simpl; rewrite Hr; destruct r; simpl;
    eexists; by repeat split.
Qed.

Lemma newRef_fresh s :
  (newRef s ∉ dom (heap s)) /\ newRef s ≠ emptyObject.
Proof.
  pose proof (is_fresh ({[emptyObject]} ∪ dom (heap s))) as H.
  fold (newRef s) in H. set_solver.
Qed.

Lemma sameRegisters_refl s : sameRegisters s s.
Proof. by split. Qed.

Lemma sameRegisters_trans s1 s2 s3 :
  sameRegisters s1 s2 -> sameRegisters s2 s3 -> sameRegisters s1 s3.
Proof. intros [? ?] [? ?]. split; congruence. Qed.

(** Without the method the parent context is handed back as it is. *)
Lemma processChildContext_without_method fiber parentContext s i :
  instances s !! stateNode fiber = Some i ->
  getChildContext i = None ->
  exists s',
    processChildContext fiber parentContext s = (Ok parentContext, s')
    /\ heap s' = heap s /\ instances s' = instances s
    /\ sameRegisters s s' /\ previousContext s' = previousContext s
    /\ (trace s' = trace s ∨ exists f a, trace s' = EvWarning f a :: trace s).
Proof.
  intros Hi Hc.
  unfold processChildContext, bind at 1, readStateNode, gets.
  rewrite Hi, Hc. unfold bind.
  destruct (warnMissingGetChildContext_spec fiber s) as (s' & -> & ?).
  by exists s'.
Qed.

(** [processChildContext] never touches the registers, the instances or
    the previous-context slot, whether it returns or throws. *)
Lemma processChildContext_frame fiber parentContext s :
  sameRegisters s (processChildContext fiber parentContext s).2
  /\ instances (processChildContext fiber parentContext s).2 = instances s
  /\ previousContext (processChildContext fiber parentContext s).2
     = previousContext s.
Proof.
  destruct (instances s !! stateNode fiber) as [i|] eqn:Hi.
  - destruct (getChildContext i) as [childContext|] eqn:Hc.
    + destruct (checkChildContextKeys_pure fiber
                  (childContextTypes (type fiber)) (keys childContext))
        as [r Hr].
      destruct (processChildContext_callable fiber parentContext s i
                  childContext r Hi Hc Hr) as (s' & -> & _ & ? & ? & ?).
      done.
    + destruct (processChildContext_without_method fiber parentContext s i
                  Hi Hc) as (s' & -> & _ & ? & ? & ? & _).
      done.
  - unfold processChildContext, bind, readStateNode, gets, throw.
    rewrite Hi. simpl. by repeat split.
Qed.

(** C4: for a provider whose instance has a [getChildContext] method that
    returns only keys declared in [childContextTypes],
    [processChildContext] returns a new object that is the shallow merge of
    the parent context with the contribution, the node's own keys taking
    precedence; when the instance has no such method it returns the parent
    context itself, emitting at most a warning and never throwing. *)
Theorem processChildContext_merges fiber parentContext s i :
  isContextProvider fiber = true ->
  instances s !! stateNode fiber = Some i ->
  (forall childContext shape,
     getChildContext i = Some childContext ->
     childContextTypes (type fiber) = Some shape ->
     Forall (fun k => k ∈ shape) (keys childContext) ->
     NoDup (keys childContext) ->
     NoDup (keys (deref s parentContext)) ->
     exists merged s',
       processChildContext fiber parentContext s = (Ok merged, s')
       /\ (merged ∉ dom (heap s)) /\ merged ≠ emptyObject
       /\ (forall l, l ≠ merged -> heap s' !! l = heap s !! l)
       /\ (forall k,
             get_own k (deref s' merged)
             = match get_own k childContext with
               | Some v => Some v
               | None => get_own k (deref s parentContext)
               end))
  /\ (getChildContext i = None ->
      exists s',
        processChildContext fiber parentContext s = (Ok parentContext, s')
        /\ heap s' = heap s /\ instances s' = instances s
        /\ sameRegisters s s'
        /\ (trace s' = trace s
            ∨ exists f a, trace s' = EvWarning f a :: trace s)).
Proof.
  intros _ Hi. split.
  - intros childContext shape Hc Hshape Hdecl Hnd Hndp.
    destruct (processChildContext_callable fiber parentContext s i
                childContext (Ok tt) Hi Hc) as (s' & Hrun & Hheap & _).
    { intros s0. rewrite Hshape. by apply checkChildContextKeys_declared. }
    exists (newRef s), s'. destruct (newRef_fresh s) as [Hfresh Hne].
    repeat split; try done.
    + intros l Hl. rewrite Hheap. by rewrite lookup_insert_ne.
    + intros k. unfold deref at 1. rewrite Hheap, lookup_insert_eq. simpl.
      rewrite !get_own_spread by done. simpl.
      by destruct (get_own k childContext), (get_own k (deref s parentContext)).
  - intros Hc.
    destruct (processChildContext_without_method fiber parentContext s i
                Hi Hc) as (s' & ? & ? & ? & ? & ? & ?).
    by exists s'.
Qed.


(** ** Push, invalidate, pop *)

Lemma pushContextProvider_run p s :
  isContextProvider p = true ->
  pushContextProvider p s
  = (Ok true,
     mkState (heap s) (instances s)
       (push (contextStackCursor s)
          (default emptyObject
             (instances s !! stateNode p
              ≫= __reactInternalMemoizedMergedChildContext)) p)
       (push (didPerformWorkStackCursor s)
          (current (didPerformWorkStackCursor s)) p)
       (current (contextStackCursor s))
       (warnedAboutMissingGetChildContext s) (trace s)).
Proof. intros Hp. unfold pushContextProvider. by rewrite Hp. Qed.

Lemma pushContextProvider_skip p s :
  isContextProvider p = false -> pushContextProvider p s = (Ok false, s).
Proof. intros Hp. unfold pushContextProvider. by rewrite Hp. Qed.

Lemma popContextProvider_run p s :
  isContextProvider p = true ->
  popContextProvider p s = (Ok tt, popBoth p s).
Proof. intros Hp. unfold popContextProvider. by rewrite Hp. Qed.

Lemma invalidateContextProvider_no_instance p didChange s :
  instances s !! stateNode p = None ->
  invalidateContextProvider p didChange s
  = (Throw
       (InvariantViolation
          ("Expected to have an instance by this point. " ++
           "This error is likely caused by a bug in React. Please file an issue.")
          []), s).
Proof.
  intros Hi. unfold invalidateContextProvider; step_M.
  by rewrite Hi.
Qed.

Lemma invalidateContextProvider_false p s :
  is_Some (instances s !! stateNode p) ->
  invalidateContextProvider p false s
  = (Ok tt,
     set_didPerformWorkStackCursor
       (push (pop (didPerformWorkStackCursor s) p) false p) s).
Proof.
  intros [i Hi]. unfold invalidateContextProvider; step_M.
  by rewrite Hi.
Qed.

Lemma invalidateContextProvider_true p s :
  is_Some (instances s !! stateNode p) ->
  invalidateContextProvider p true s
  = match processChildContext p (previousContext s) s with
    | (Ok mergedContext, s1) =>
        (Ok tt,
         mkState (heap s1)
           (alter (set_memoizedMerged mergedContext) (stateNode p)
              (instances s1))
           (push (pop (contextStackCursor s1) p) mergedContext p)
           (push (pop (didPerformWorkStackCursor s1) p) true p)
           (previousContext s1)
           (warnedAboutMissingGetChildContext s1) (trace s1))
    | (Throw e, s1) => (Throw e, s1)
    end.
Proof.
  intros [i Hi]. unfold invalidateContextProvider; step_M.
  rewrite Hi. simpl.
  by destruct (processChildContext p (previousContext s) s) as [[m|e] s1].
Qed.

(** However [invalidateContextProvider] ends, each register holds either
    the frames it held or the same frames with the top one replaced by a
    frame of the invalidated fiber, carrying [didChange] on the did-change
    register. *)
Lemma invalidateContextProvider_frames p didChange s :
  let s' := (invalidateContextProvider p didChange s).2 in
  previousContext s' = previousContext s
  /\ cursor (contextStackCursor s') = cursor (contextStackCursor s)
  /\ (sameRegisters s s'
      ∨ (frames (didPerformWorkStackCursor s')
         = (p, didChange) :: tail (frames (didPerformWorkStackCursor s))
         /\ (frames (contextStackCursor s') = frames (contextStackCursor s)
             ∨ exists m, frames (contextStackCursor s')
                         = (p, m) :: tail (frames (contextStackCursor s))))).
Proof.
  destruct (instances s !! stateNode p) as [i|] eqn:Hi.
  - destruct didChange.
    + rewrite invalidateContextProvider_true by eauto.
      destruct (processChildContext_frame p (previousContext s) s)
        as ([Hc Hd] & _ & Hp).
      destruct (processChildContext p (previousContext s) s) as [[m|e] s1];
        simpl in *.
      * rewrite Hc, Hd. repeat split; [done..|]. right. eauto.
      * repeat split; [done| by rewrite Hc |]. left. by split.
    + rewrite invalidateContextProvider_false by eauto. simpl.
      repeat split; [done..|]. right. eauto.
  - rewrite invalidateContextProvider_no_instance by done. simpl.
    repeat split; [done..|]. left. apply sameRegisters_refl.
Qed.

(** C1: for a provider [p] and any state of the two registers, pushing
    [p], invalidating it with [didChange = true] and popping it leaves the
    context register and the did-change register exactly as they were
    before the push, depth and content (this holds whether the invalidate
    step returns or throws). *)
Theorem provider_round_trip p s :
  isContextProvider p = true ->
  sameRegisters s
    (afterAll [PushContextProvider p; InvalidateContextProvider p true;
               PopContextProvider p] s).
Proof.
  intros Hp. unfold afterAll. simpl.
  rewrite pushContextProvider_run by done. simpl.
  set (s1 := mkState _ _ _ _ _ _ _).
  rewrite popContextProvider_run by done.
  assert (Hctx : pop (contextStackCursor s1) p = contextStackCursor s)
    by apply pop_push.
  assert (Hdid : pop (didPerformWorkStackCursor s1) p
                 = didPerformWorkStackCursor s) by apply pop_push.
  destruct (instances s1 !! stateNode p) as [i|] eqn:Hi.
  - rewrite invalidateContextProvider_true by eauto.
    destruct (processChildContext_frame p (previousContext s1) s1)
      as ([Hc Hd] & _ & _).
    destruct (processChildContext p (previousContext s1) s1) as [[m|e] s2];
      simpl in *.
    + split; simpl; rewrite pop_push; congruence.
    + split; simpl; congruence.
  - rewrite invalidateContextProvider_no_instance by done. by split.
Qed.

(** ** Masking and memoisation *)

Lemma getMaskedContext_no_shape w u s :
  contextTypes (type w) = None ->
  getMaskedContext w u s = (Ok (Some emptyObject), s).
Proof. intros H. unfold getMaskedContext. by rewrite H. Qed.

(** The memoised pair is for this unmasked object: the memoised masked
    object is returned and nothing is written. *)
Lemma getMaskedContext_hit w u s declared i :
  contextTypes (type w) = Some declared ->
  instances s !! stateNode w = Some i ->
  __reactInternalMemoizedUnmaskedChildContext i = Some u ->
  getMaskedContext w u s
  = (Ok (__reactInternalMemoizedMaskedChildContext i), s).
Proof.
  intros Hd Hi Hu. unfold getMaskedContext; step_M.
  rewrite Hd, Hi. simpl. by rewrite bool_decide_eq_true_2.
Qed.

(** The instance exists and its memo is for another object: a new masked
    object is built and memoised together with the unmasked one. *)
Lemma getMaskedContext_miss w u s declared i :
  contextTypes (type w) = Some declared ->
  instances s !! stateNode w = Some i ->
  __reactInternalMemoizedUnmaskedChildContext i ≠ Some u ->
  exists s',
    getMaskedContext w u s = (Ok (Some (newRef s)), s')
    /\ heap s' = <[newRef s := maskContext declared (deref s u)]> (heap s)
    /\ instances s'
       = <[stateNode w := set_memoizedUnmaskedMasked u (newRef s) i]>
           (instances s)
    /\ sameRegisters s s' /\ previousContext s' = previousContext s.
Proof.
  intros Hd Hi Hu.
  unfold getMaskedContext, bind, readStateNode, gets, alloc, when, emit,
    modify, ret, cacheContext, bind, readStateNode, gets.
  rewrite Hd, Hi. simpl. rewrite bool_decide_eq_false_2 by done.
  destruct dev; simpl; rewrite Hi; simpl; eexists; by repeat split.
Qed.

(** There is no instance yet: a new masked object is built and nothing is
    memoised. *)
Lemma getMaskedContext_no_instance w u s declared :
  contextTypes (type w) = Some declared ->
  instances s !! stateNode w = None ->
  exists s',
    getMaskedContext w u s = (Ok (Some (newRef s)), s')
    /\ heap s' = <[newRef s := maskContext declared (deref s u)]> (heap s)
    /\ instances s' = instances s
    /\ sameRegisters s s' /\ previousContext s' = previousContext s.
Proof.
  intros Hd Hi.
  unfold getMaskedContext, bind, readStateNode, gets, alloc, when, emit,
    modify, ret.
  rewrite Hd, Hi. simpl.
  destruct dev; simpl; eexists; by repeat split.
Qed.

Lemma getMaskedContext_frame w u s :
  sameRegisters s (getMaskedContext w u s).2
  /\ previousContext (getMaskedContext w u s).2 = previousContext s.
Proof.
  destruct (contextTypes (type w)) as [declared|] eqn:Hd.
  - destruct (instances s !! stateNode w) as [i|] eqn:Hi.
    + destruct (decide (__reactInternalMemoizedUnmaskedChildContext i
                        = Some u)) as [Hu|Hu].
      * rewrite (getMaskedContext_hit w u s declared i) by done.
        split; [apply sameRegisters_refl | done].
      * destruct (getMaskedContext_miss w u s declared i Hd Hi Hu)
          as (s' & -> & _ & _ & ? & ?).
        done.
    + destruct (getMaskedContext_no_instance w u s declared Hd Hi)
        as (s' & -> & _ & _ & ? & ?).
      done.
  - rewrite getMaskedContext_no_shape by done.
    split; [apply sameRegisters_refl | done].
Qed.

Lemma cacheContext_frame w u m s :
  sameRegisters s (cacheContext w u m s).2
  /\ previousContext (cacheContext w u m s).2 = previousContext s.
Proof.
  unfold cacheContext, bind, readStateNode, gets, modify, throw.
  destruct (instances s !! stateNode w); simpl; by repeat split.
Qed.

(** C10: for a node that declares [contextTypes] but has no instance,
    every call of [getMaskedContext] allocates a new masked object (a
    reference that was not live before the call, holding the declared keys
    read from the unmasked object) and leaves every instance, hence every
    memo field, as it was; two consecutive calls with the same unmasked
    reference return two distinct references. *)
Theorem getMaskedContext_without_instance n E s declared :
  contextTypes (type n) = Some declared ->
  instances s !! stateNode n = None ->
  exists m1 s1 m2 s2,
    getMaskedContext n E s = (Ok (Some m1), s1)
    /\ getMaskedContext n E s1 = (Ok (Some m2), s2)
    /\ m1 ≠ m2
    /\ (m1 ∉ dom (heap s)) /\ (m2 ∉ dom (heap s1))
    /\ m1 ≠ emptyObject /\ m2 ≠ emptyObject
    /\ instances s1 = instances s /\ instances s2 = instances s
    /\ (forall k,
          get_own k (deref s1 m1)
          = if bool_decide (k ∈ declared)
            then Some (get_prop k (deref s E)) else None).
Proof.
  clear isFiberMounted. intros Hd Hi.
  destruct (getMaskedContext_no_instance n E s declared Hd Hi)
    as (s1 & Hrun1 & Hheap1 & Hinst1 & _).
  assert (Hi1 : instances s1 !! stateNode n = None) by by rewrite Hinst1.
  destruct (getMaskedContext_no_instance n E s1 declared Hd Hi1)
    as (s2 & Hrun2 & Hheap2 & Hinst2 & _).
  destruct (newRef_fresh s) as [Hf1 Hne1].
  destruct (newRef_fresh s1) as [Hf2 Hne2].
  exists (newRef s), s1, (newRef s1), s2.
  repeat split; try done; try congruence.
  - intros Heq. apply Hf2. rewrite <- Heq, Hheap1, dom_insert_L. set_solver.
  - intros k. unfold deref at 1. rewrite Hheap1, lookup_insert_eq. simpl.
    apply get_own_maskContext.
Qed.

(** C3, as the code has it: for a node that declares no [contextTypes] or
    that has an instance, two consecutive calls of [getMaskedContext] with
    the same unmasked reference return the same masked reference; the
    second call writes nothing. *)
Theorem getMaskedContext_memoized n E s :
  contextTypes (type n) = None ∨ is_Some (instances s !! stateNode n) ->
  exists m s1,
    getMaskedContext n E s = (Ok m, s1)
    /\ getMaskedContext n E s1 = (Ok m, s1).
Proof.
  intros Hcase.
  destruct (contextTypes (type n)) as [declared|] eqn:Hd.
  - destruct Hcase as [|[i Hi]]; [done|].
    destruct (decide (__reactInternalMemoizedUnmaskedChildContext i
                      = Some E)) as [Hu|Hu].
    + exists (__reactInternalMemoizedMaskedChildContext i), s.
      by rewrite (getMaskedContext_hit n E s declared i).
    + destruct (getMaskedContext_miss n E s declared i Hd Hi Hu)
        as (s1 & Hrun & _ & Hinst & _).
      exists (Some (newRef s)), s1. split; [done|].
      rewrite (getMaskedContext_hit n E s1 declared
                 (set_memoizedUnmaskedMasked E (newRef s) i)); try done.
      by rewrite Hinst, lookup_insert_eq.
  - exists (Some emptyObject), s. by rewrite getMaskedContext_no_shape.
Qed.

(** ** The root frame *)

(** The guard of [pushTopLevelContextObject] looks at the [cursor]
    property of the register only: when that is null or undefined the two
    frames are pushed, whatever the register holds. *)
Lemma pushTopLevelContextObject_run fiber context didChange s :
  looselyNull (cursor (contextStackCursor s)) = true ->
  pushTopLevelContextObject fiber context didChange s
  = (Ok tt,
     mkState (heap s) (instances s)
       (push (contextStackCursor s) context fiber)
       (push (didPerformWorkStackCursor s) didChange fiber)
       (previousContext s) (warnedAboutMissingGetChildContext s) (trace s)).
Proof.
  intros H. unfold pushTopLevelContextObject; step_M.
  by rewrite H.
Qed.

Lemma pushTopLevelContextObject_throws fiber context didChange s :
  looselyNull (cursor (contextStackCursor s)) = false ->
  pushTopLevelContextObject fiber context didChange s
  = (Throw
       (InvariantViolation
          ("Unexpected context found on stack. " ++
           "This error is likely caused by a bug in React. Please file an issue.")
          []), s).
Proof.
  intros H. unfold pushTopLevelContextObject; step_M.
  by rewrite H.
Qed.

(** C8, what the code does: after the module is created, a first
    [pushTopLevelContextObject] leaves one live root frame on the context
    register, and a second call made while that frame is live does not
    throw: it returns and pushes a second frame onto each register. *)
Theorem pushTopLevelContextObject_twice h insts warned fiber context
  didChange fiber' context' didChange' :
  exists s1 s2,
    pushTopLevelContextObject fiber context didChange
      (initialState h insts warned)
    = (Ok tt, s1)
    /\ frames (contextStackCursor s1) = [(fiber, context)]
    /\ pushTopLevelContextObject fiber' context' didChange' s1 = (Ok tt, s2)
    /\ frames (contextStackCursor s2) = [(fiber', context'); (fiber, context)]
    /\ frames (didPerformWorkStackCursor s2)
       = [(fiber', didChange'); (fiber, didChange)].
Proof.
  eexists _, _. rewrite pushTopLevelContextObject_run by done.
  split; [done|]. split; [done|].
  rewrite pushTopLevelContextObject_run by done. by repeat split.
Qed.

(** ** The ancestor walk *)

Lemma walkUp_unfold node :
  walkUp node
  = node :: match return_ node with
            | Some parent => walkUp parent
            | None => []
            end.
Proof. by destruct node. Qed.

Lemma findFrom_unfold node :
  findFrom node
  = if bool_decide (tag node = HostRoot) then
      bind (readStateNode node) (fun root =>
        match root with
        | Some r => ret (context r)
        | None => throw TypeError
        end)
    else if isContextProvider node then
      bind (readStateNode node) (fun instance =>
        match instance with
        | Some i => ret (__reactInternalMemoizedMergedChildContext i)
        | None => throw TypeError
        end)
    else
      match return_ node with
      | Some parent => findFrom parent
      | None =>
          throw (InvariantViolation
                   ("Found unexpected detached subtree parent. " ++
                    "This error is likely caused by a bug in React. Please file an issue.")
                   [])
      end.
Proof. by destruct node. Qed.

Lemma findFrom_along s below :
  forall node target above,
    walkUp node = (below ++ target :: above)%list ->
    Forall passedOver below ->
    findFrom node s = findFrom target s.
Proof.
  induction below as [|b bs IH]; intros node target above Hwalk Hbelow.
  - rewrite walkUp_unfold in Hwalk. simpl in Hwalk. by injection Hwalk as ->.
  - rewrite walkUp_unfold in Hwalk. simpl in Hwalk.
    injection Hwalk as -> Hrest.
    apply Forall_cons in Hbelow as [[Hprov Htag] Hbelow].
    rewrite findFrom_unfold, Hprov, bool_decide_eq_false_2 by done.
    destruct (return_ b) as [parent|].
    + by apply (IH parent target above).
    + by destruct bs.
Qed.

Lemma findFrom_detached s node :
  Forall passedOver (walkUp node) ->
  findFrom node s
  = (Throw
       (InvariantViolation
          ("Found unexpected detached subtree parent. " ++
           "This error is likely caused by a bug in React. Please file an issue.")
          []), s).
Proof.
  induction node as [node IH] using Fiber_return_ind.
  rewrite walkUp_unfold. intros [[Hprov Htag] Hrest]%Forall_cons.
  rewrite findFrom_unfold, Hprov, bool_decide_eq_false_2 by done.
  destruct (return_ node) as [parent|]; [by apply IH | done].
Qed.

Lemma findFrom_state node s : (findFrom node s).2 = s.
Proof.
  induction node as [node IH] using Fiber_return_ind.
  rewrite findFrom_unfold. unfold bind, readStateNode, gets, ret, throw.
  destruct (bool_decide (tag node = HostRoot)).
  { by destruct (instances s !! stateNode node). }
  destruct (isContextProvider node).
  { by destruct (instances s !! stateNode node). }
  destruct (return_ node) as [parent|]; [by apply IH | done].
Qed.

Lemma findCurrentUnmaskedContext_state fiber s :
  (findCurrentUnmaskedContext fiber s).2 = s.
Proof.
  unfold findCurrentUnmaskedContext, bind, invariant.
  destruct (_ && _); simpl; [|done].
  pose proof (findFrom_state fiber s) as H.
  by destruct (findFrom fiber s) as [[r|e] s'].
Qed.

(** C7: for a mounted class-component fiber, the walk passes over the
    nodes that are neither providers nor the root.  If the first node it
    cannot pass over is a provider, the result is the merged context
    memoised on that provider's instance, whatever providers lie further
    up; if it is the host root, the result is the context stored on the
    root; if the parent chain ends before either is met, the call throws
    the detached-subtree invariant violation. *)
Theorem findCurrentUnmaskedContext_nearest fiber s :
  isFiberMounted fiber = true ->
  tag fiber = ClassComponent ->
  (forall below p above i,
     walkUp fiber = (below ++ p :: above)%list ->
     Forall passedOver below ->
     isContextProvider p = true ->
     instances s !! stateNode p = Some i ->
     findCurrentUnmaskedContext fiber s
     = (Ok (__reactInternalMemoizedMergedChildContext i), s))
  /\ (forall below root above r,
        walkUp fiber = (below ++ root :: above)%list ->
        Forall passedOver below ->
        tag root = HostRoot ->
        instances s !! stateNode root = Some r ->
        findCurrentUnmaskedContext fiber s = (Ok (context r), s))
  /\ (Forall passedOver (walkUp fiber) ->
      findCurrentUnmaskedContext fiber s
      = (Throw
           (InvariantViolation
              ("Found unexpected detached subtree parent. " ++
               "This error is likely caused by a bug in React. Please file an issue.")
              []), s)).
Proof.
  intros Hm Ht.
  assert (Hstart : forall r s', findFrom fiber s = (r, s') ->
                     findCurrentUnmaskedContext fiber s = (r, s')).
  { intros r s' H. unfold findCurrentUnmaskedContext, bind, invariant.
    rewrite Hm, bool_decide_eq_true_2 by done. simpl. rewrite H.
    by destruct r. }
  repeat split.
  - intros below p above i Hwalk Hbelow Hp Hi. apply Hstart.
    rewrite (findFrom_along s below fiber p above) by done.
    destruct (isContextProvider_shape p Hp) as [Htag _].
    rewrite findFrom_unfold, Hp, bool_decide_eq_false_2 by by rewrite Htag.
    step_M. by rewrite Hi.
  - intros below root above r Hwalk Hbelow Hroot Hr. apply Hstart.
    rewrite (findFrom_along s below fiber root above) by done.
    rewrite findFrom_unfold, bool_decide_eq_true_2 by done.
    step_M. by rewrite Hr.
  - intros Hall. apply Hstart. by apply findFrom_detached.
Qed.

(** ** What a call can do to the slot and to the did-change register *)

(** Only the push of a provider writes the previous-context slot. *)
Lemma previousContext_after op s :
  (forall q, op = PushContextProvider q -> isContextProvider q = false) ->
  previousContext (after op s) = previousContext s.
Proof.
  intros Hop. destruct op as [w u m|w u|f|f|f c d|f c|w|w d|f]; simpl.
  - apply cacheContext_frame.
  - apply getMaskedContext_frame.
  - unfold popContextProvider. by destruct (isContextProvider f).
  - done.
  - unfold pushTopLevelContextObject; step_M.
    by destruct (looselyNull _).
  - apply processChildContext_frame.
  - by rewrite pushContextProvider_skip by by apply Hop.
  - apply invalidateContextProvider_frames.
  - by rewrite findCurrentUnmaskedContext_state.
Qed.

Lemma previousContext_afterAll ops s :
  Forall (fun op => forall q, op = PushContextProvider q ->
                      isContextProvider q = false) ops ->
  previousContext (afterAll ops s) = previousContext s.
Proof.
  unfold afterAll. intros Hops. revert s.
  induction Hops as [|op ops Hop _ IH]; intros s; simpl; [done|].
  rewrite IH. by apply previousContext_after.
Qed.

(** One call leaves the frames of the did-change register as they were,
    pushes one frame, pops one frame, or (an invalidate) replaces the top
    frame by a frame of the invalidated fiber carrying [didChange]. *)
Lemma didPerformWork_frames_after op s :
  let before := frames (didPerformWorkStackCursor s) in
  let now := frames (didPerformWorkStackCursor (after op s)) in
  now = before
  ∨ (exists frame, now = frame :: before)
  ∨ now = tail before
  ∨ (exists w d, op = InvalidateContextProvider w d
                 /\ now = (w, d) :: tail before).
Proof.
  destruct op as [w u m|w u|f|f|f c d|f c|w|w d|f]; simpl.
  - left. by destruct (cacheContext_frame w u m s) as [[_ ->] _].
  - left. by destruct (getMaskedContext_frame w u s) as [[_ ->] _].
  - unfold popContextProvider.
    destruct (isContextProvider f); simpl; [right; right|]; by left.
  - right; right; by left.
  - unfold pushTopLevelContextObject; step_M.
    destruct (looselyNull _); simpl; [right|]; left; eauto.
  - left. by destruct (processChildContext_frame f c s) as [[_ ->] _].
  - destruct (isContextProvider w) eqn:Hw.
    + rewrite pushContextProvider_run by done. right; left. simpl. eauto.
    + rewrite pushContextProvider_skip by done. by left.
  - destruct (invalidateContextProvider_frames w d s)
      as (_ & _ & [[_ ->]|[-> _]]); [by left|].
    right; right; right. eauto.
  - rewrite findCurrentUnmaskedContext_state. by left.
Qed.

(** No call writes the [cursor] property of the context register. *)
Lemma contextStackCursor_cursor_after op s :
  cursor (contextStackCursor (after op s)) = cursor (contextStackCursor s).
Proof.
  destruct op as [w u m|w u|f|f|f c d|f c|w|w d|f]; simpl.
  - by destruct (cacheContext_frame w u m s) as [[-> _] _].
  - by destruct (getMaskedContext_frame w u s) as [[-> _] _].
  - unfold popContextProvider. by destruct (isContextProvider f).
  - done.
  - unfold pushTopLevelContextObject; step_M.
    by destruct (looselyNull _).
  - by destruct (processChildContext_frame f c s) as [[-> _] _].
  - unfold pushContextProvider. by destruct (isContextProvider w).
  - apply invalidateContextProvider_frames.
  - by rewrite findCurrentUnmaskedContext_state.
Qed.

(** So, whatever was called since the module was created, and whatever
    frames are live, [pushTopLevelContextObject] returns and pushes. *)
Lemma pushTopLevelContextObject_never_throws h insts warned ops fiber
  context didChange :
  exists s',
    pushTopLevelContextObject fiber context didChange
      (afterAll ops (initialState h insts warned)) = (Ok tt, s')
    /\ frames (contextStackCursor s')
       = (fiber, context)
         :: frames (contextStackCursor (afterAll ops (initialState h insts warned)))
    /\ frames (didPerformWorkStackCursor s')
       = (fiber, didChange)
         :: frames (didPerformWorkStackCursor
                      (afterAll ops (initialState h insts warned))).
Proof.
  assert (Hcursor : cursor (contextStackCursor
                              (afterAll ops (initialState h insts warned)))
                    = JsUndefined).
  { unfold afterAll. generalize (initialState h insts warned) (eq_refl :
      cursor (contextStackCursor (initialState h insts warned)) = JsUndefined).
    induction ops as [|op ops IH]; intros s Hs; simpl; [done|].
    apply IH. by rewrite contextStackCursor_cursor_after. }
  eexists. rewrite pushTopLevelContextObject_run by by rewrite Hcursor.
  by repeat split.
Qed.

(** C2: after [pushContextProvider(p)] has returned true, and as long as
    no other provider is pushed, [getUnmaskedContext(p)] is the object that
    was current on the context register immediately before that push. *)
Theorem provider_reads_parent_context p s ops :
  (pushContextProvider p s).1 = Ok true ->
  Forall (fun op => forall q, op = PushContextProvider q ->
                      isContextProvider q = false) ops ->
  getUnmaskedContext p (afterAll ops (pushContextProvider p s).2)
  = current (contextStackCursor s).
Proof.
  intros Hpushed Hops.
  destruct (isContextProvider p) eqn:Hp.
  - unfold getUnmaskedContext. rewrite Hp.
    rewrite previousContext_afterAll by done.
    by rewrite pushContextProvider_run.
  - by rewrite pushContextProvider_skip in Hpushed.
Qed.

(** C5: for a provider with an instance,
    [invalidateContextProvider(p, false)] returns after replacing the top
    frame of the did-change register by a frame of [p] holding false; the
    context register, the instances (so the memoised merged context), the
    heap and the trace of calls to collaborators (so no call of
    [getChildContext]) are as before, and a second call changes nothing
    more. *)
Theorem invalidateContextProvider_false_idle p s :
  isContextProvider p = true ->
  is_Some (instances s !! stateNode p) ->
  exists s1,
    invalidateContextProvider p false s = (Ok tt, s1)
    /\ invalidateContextProvider p false s1 = (Ok tt, s1)
    /\ frames (didPerformWorkStackCursor s1)
       = (p, false) :: tail (frames (didPerformWorkStackCursor s))
    /\ contextStackCursor s1 = contextStackCursor s
    /\ instances s1 = instances s
    /\ heap s1 = heap s
    /\ trace s1 = trace s
    /\ previousContext s1 = previousContext s.
Proof.
  intros _ Hi. eexists. rewrite invalidateContextProvider_false by done.
  split; [done|].
  rewrite invalidateContextProvider_false by done. simpl.
  by rewrite pop_push.
Qed.

(** C6: pushing a provider pushes, for that node, the flag that was
    current on the did-change register at that moment; a frame whose flag
    is false is found with a true flag after a call only when that call is
    [invalidateContextProvider(node, true)], the frame then being keyed to
    [node]; and [hasContextChanged] reads the flag of the top frame (the
    register's initial value when it has no frame). *)
Theorem didPerformWork_flag_discipline :
  (forall node s,
     isContextProvider node = true ->
     frames (didPerformWorkStackCursor (after (PushContextProvider node) s))
     = (node, hasContextChanged s) :: frames (didPerformWorkStackCursor s))
  /\ (forall op s level owner node,
        rev (frames (didPerformWorkStackCursor s)) !! level
        = Some (owner, false) ->
        rev (frames (didPerformWorkStackCursor (after op s))) !! level
        = Some (node, true) ->
        op = InvalidateContextProvider node true)
  /\ (forall s,
        hasContextChanged s
        = match frames (didPerformWorkStackCursor s) with
          | (_, flag) :: _ => flag
          | [] => initial (didPerformWorkStackCursor s)
          end).
Proof.
  split; [|split].
  - intros node s Hp. simpl. by rewrite pushContextProvider_run.
  - intros op s level owner node Hold Hnew.
    pose proof (lookup_lt_Some _ _ _ Hold) as Hlt.
    rewrite length_rev in Hlt.
    destruct (didPerformWork_frames_after op s)
      as [E|[[frame E]|[E|(w & d & -> & E)]]];
      rewrite E in Hnew; clear E.
    + congruence.
    + simpl in Hnew. rewrite lookup_app_l in Hnew
        by by rewrite length_rev.
      congruence.
    + destruct (frames (didPerformWorkStackCursor s)) as [|top below];
        simpl in *; [lia|].
      pose proof (lookup_lt_Some _ _ _ Hnew) as Hlt'.
      rewrite lookup_app_l in Hold by done. congruence.
    + destruct (frames (didPerformWorkStackCursor s)) as [|top below];
        simpl in *; [lia|].
      destruct (decide (level < length below)) as [Hin|Hout].
      * rewrite lookup_app_l in Hold, Hnew by by rewrite length_rev.
        congruence.
      * assert (level = length (rev below)) as -> by (rewrite length_rev; lia).
        rewrite list_lookup_middle in Hnew by done. congruence.
  - intros s. unfold hasContextChanged, current.
    by destruct (frames (didPerformWorkStackCursor s)) as [|[? ?] ?].
Qed.

End Properties.

(** ** The demo tree *)

(** The scenario of the specification: under a root pushed with
    [didChange = false], a provider that is entered and invalidated with
    [didChange = true] makes [hasContextChanged] read true for its
    children, and false again for its siblings once it is popped. *)
Example demo_hasContextChanged :
  let inside :=
    afterAll true demoName demoMounted
      [PushTopLevelContextObject hostRootFiber emptyObject false;
       PushContextProvider messageListFiber;
       InvalidateContextProvider messageListFiber true] demoState in
  let outside :=
    after true demoName demoMounted (PopContextProvider messageListFiber)
      inside in
  hasContextChanged inside = true /\ hasContextChanged outside = false.
Proof. vm_compute. by split. Qed.

(** Nested providers: the button reads red under the inner provider, and
    purple is current again once the inner provider is popped. *)
Example demo_nested_colors :
  let steps :=
    [PushTopLevelContextObject hostRootFiber emptyObject false;
     PushContextProvider messageListFiber;
     InvalidateContextProvider messageListFiber true;
     PushContextProvider testFiber;
     InvalidateContextProvider testFiber true] in
  let inner := afterAll true demoName demoMounted steps demoState in
  let outer :=
    after true demoName demoMounted (PopContextProvider testFiber) inner in
  get_prop "color" (deref inner (getUnmaskedContext buttonFiber inner))
  = JsStr "red"
  /\ get_prop "color" (deref outer (getUnmaskedContext buttonFiber outer))
     = JsStr "purple".
Proof. vm_compute. by split. Qed.

(** The rogue provider is reported with its name and the key it did not
    declare. *)
Example demo_rogue_provider :
  (processChildContext true demoName rogueFiber emptyObject demoState).1
  = Throw
      (InvariantViolation
         ("%s.getChildContext(): key " ++ doubleQuote ++ "%s" ++ doubleQuote
          ++ " is not defined in childContextTypes.")
         ["Test"; "size"]).
Proof. reflexivity. Qed.

Lemma provider_round_trip_witness :
  isContextProvider testFiber = true
  /\ sameRegisters insideMessageList
       (afterAll true demoName demoMounted
          [PushContextProvider testFiber;
           InvalidateContextProvider testFiber true;
           PopContextProvider testFiber] insideMessageList).
Proof.
  split; [reflexivity|].
  apply (provider_round_trip true demoName demoMounted testFiber
           insideMessageList).
  reflexivity.
Defined.

Lemma provider_reads_parent_context_witness :
  getUnmaskedContext testFiber
    (afterAll true demoName demoMounted
       [GetMaskedContext buttonFiber 10%positive;
        InvalidateContextProvider testFiber true]
       (pushContextProvider testFiber insideMessageList).2)
  = current (contextStackCursor insideMessageList).
Proof.
  apply (provider_reads_parent_context true demoName demoMounted testFiber
           insideMessageList).
  - reflexivity.
  - repeat constructor; intros q; discriminate.
Defined.

Lemma getMaskedContext_memoized_witness :
  exists m s1,
    getMaskedContext true demoName buttonFiber 11%positive demoState
    = (Ok m, s1)
    /\ getMaskedContext true demoName buttonFiber 11%positive s1 = (Ok m, s1).
Proof.
  apply (getMaskedContext_memoized true demoName buttonFiber 11%positive
           demoState).
  right. exists plainInstance. reflexivity.
Defined.

(** The claim of C3 taken for every node fails on a node without an
    instance: the two calls return two different references. *)
Lemma getMaskedContext_not_memoized_without_instance :
  let first :=
    getMaskedContext true demoName newButtonFiber 11%positive demoState in
  let second :=
    getMaskedContext true demoName newButtonFiber 11%positive first.2 in
  first.1 = Ok (Some 12%positive)
  /\ second.1 = Ok (Some 13%positive)
  /\ first.1 ≠ second.1.
Proof. vm_compute. repeat split; discriminate. Qed.

Lemma processChildContext_merges_witness :
  exists merged s',
    processChildContext true demoName testFiber 10%positive demoState
    = (Ok merged, s')
    /\ get_own "color" (deref s' merged) = Some (JsStr "red").
Proof.
  destruct (processChildContext_merges true demoName testFiber 10%positive
              demoState testInstance eq_refl eq_refl) as [Hmerge _].
  destruct (Hmerge [("color", JsStr "red")] ["color"] eq_refl eq_refl)
    as (merged & s' & Hrun & _ & _ & _ & Hkey).
  - repeat constructor.
  - vm_compute. repeat constructor. by intros ?%elem_of_nil.
  - vm_compute. repeat constructor. by intros ?%elem_of_nil.
  - exists merged, s'. split; [exact Hrun|]. rewrite Hkey. reflexivity.
Defined.

Lemma invalidateContextProvider_false_idle_witness :
  exists s1,
    invalidateContextProvider true demoName testFiber false
      (pushContextProvider testFiber insideMessageList).2 = (Ok tt, s1)
    /\ invalidateContextProvider true demoName testFiber false s1 = (Ok tt, s1)
    /\ hasContextChanged s1 = false.
Proof.
  destruct (invalidateContextProvider_false_idle true demoName testFiber
              (pushContextProvider testFiber insideMessageList).2)
    as (s1 & Hrun & Hagain & Hframes & _).
  - reflexivity.
  - exists testInstance. reflexivity.
  - exists s1. repeat split; [exact Hrun | exact Hagain |].
    unfold hasContextChanged, current. by rewrite Hframes.
Defined.

Lemma didPerformWork_flag_discipline_witness :
  frames (didPerformWorkStackCursor
            (after true demoName demoMounted
               (PushContextProvider messageListFiber) rootPushed))
  = (messageListFiber, true) :: frames (didPerformWorkStackCursor rootPushed).
Proof.
  apply (proj1 (didPerformWork_flag_discipline true demoName demoMounted)
           messageListFiber rootPushed).
  reflexivity.
Defined.

Lemma findCurrentUnmaskedContext_nearest_witness :
  findCurrentUnmaskedContext demoMounted buttonFiber demoState
  = (Ok (Some 11%positive), demoState).
Proof.
  destruct (findCurrentUnmaskedContext_nearest demoMounted buttonFiber
              demoState eq_refl eq_refl) as [Hnearest _].
  apply (Hnearest [buttonFiber; messageFiber] testFiber
           [messageListFiber; appFiber; hostRootFiber] testInstance).
  - reflexivity.
  - repeat constructor; discriminate.
  - reflexivity.
  - reflexivity.
Defined.



Lemma getMaskedContext_without_instance_witness :
  exists m1 s1 m2 s2,
    getMaskedContext true demoName newButtonFiber 11%positive demoState
    = (Ok (Some m1), s1)
    /\ getMaskedContext true demoName newButtonFiber 11%positive s1
       = (Ok (Some m2), s2)
    /\ m1 ≠ m2
    /\ get_own "color" (deref s1 m1) = Some (JsStr "red").
Proof.
  destruct (getMaskedContext_without_instance true demoName
              newButtonFiber 11%positive demoState ["color"]
              eq_refl eq_refl)
    as (m1 & s1 & m2 & s2 & H1 & H2 & Hne & _ & _ & _ & _ & _ & _ & Hkey).
  exists m1, s1, m2, s2. repeat split; [exact H1 | exact H2 | exact Hne |].
  rewrite Hkey. reflexivity.
Defined.

(** * Further properties of the module *)

Section Further.

Variable dev : bool.
Variable getComponentName : Fiber -> option string.
Variable isFiberMounted : Fiber -> bool.

#[local] Abbreviation getMaskedContext := (getMaskedContext dev getComponentName).
#[local] Abbreviation processChildContext :=
  (processChildContext dev getComponentName).
#[local] Abbreviation invalidateContextProvider :=
  (invalidateContextProvider dev getComponentName).
#[local] Abbreviation findCurrentUnmaskedContext :=
  (findCurrentUnmaskedContext isFiberMounted).
#[local] Abbreviation checkChildContextKeys :=
  (checkChildContextKeys getComponentName).
#[local] Abbreviation after := (after dev getComponentName isFiberMounted).
#[local] Abbreviation afterAll := (afterAll dev getComponentName isFiberMounted).

(** ** Nested traversals *)

Lemma framesAbove_refl {T} (c : StackCursor T) : framesAbove 0 c c.
Proof. by repeat split. Qed.

Lemma framesAbove_push {T} k (c0 c : StackCursor T) v f :
  framesAbove k c0 c -> framesAbove (S k) c0 (push c v f).
Proof.
  intros (Hc & Hi & Hd & Hl). repeat split; simpl; try done. by rewrite Hl.
Qed.

Lemma framesAbove_pop {T} k (c0 c : StackCursor T) f :
  framesAbove (S k) c0 c -> framesAbove k c0 (pop c f).
Proof.
  intros (Hc & Hi & Hd & Hl). destruct c as [cu ini [|top below]];
    simpl in *; [lia|].
  repeat split; simpl; try done. lia.
Qed.

Lemma framesAbove_replace {T} k (c0 c : StackCursor T) v f g :
  framesAbove (S k) c0 c -> framesAbove (S k) c0 (push (pop c f) v g).
Proof. intros H. by apply framesAbove_push, framesAbove_pop. Qed.

Lemma framesAbove_0 {T} (c0 c : StackCursor T) : framesAbove 0 c0 c -> c = c0.
Proof.
  intros (Hc & Hi & Hd & _). destruct c, c0; simpl in *. by subst.
Qed.

(** What [invalidateContextProvider] leaves on the registers, however it
    ends: nothing new, or the top frames replaced. *)
Lemma invalidateContextProvider_registers p didChange s :
  let s' := (invalidateContextProvider p didChange s).2 in
  sameRegisters s s'
  ∨ (didPerformWorkStackCursor s'
     = push (pop (didPerformWorkStackCursor s) p) didChange p
     /\ (contextStackCursor s' = contextStackCursor s
         ∨ exists m, contextStackCursor s'
                     = push (pop (contextStackCursor s) p) m p)).
Proof.
  destruct (instances s !! stateNode p) as [i|] eqn:Hi.
  - destruct didChange.
    + rewrite invalidateContextProvider_true by eauto.
      destruct (processChildContext_frame dev getComponentName p
                  (previousContext s) s) as ([Hc Hd] & _ & _).
      destruct (processChildContext p (previousContext s) s) as [[m|e] s1];
        simpl in *.
      * right. rewrite Hc, Hd. eauto.
      * left. by split.
    + rewrite invalidateContextProvider_false by eauto. simpl. right. eauto.
  - rewrite invalidateContextProvider_no_instance by done. left.
    apply sameRegisters_refl.
Qed.

(** One call that respects the discipline leaves both registers alone,
    pushes one frame on each, pops one frame from each, or replaces the top
    frame. *)
Lemma registers_after op s k k' :
  looselyNull (cursor (contextStackCursor s)) = true ->
  stepDepth k op = Some k' ->
  (k' = k /\ sameRegisters s (after op s))
  ∨ (k' = S k
     /\ exists f v b,
          contextStackCursor (after op s) = push (contextStackCursor s) v f
          /\ didPerformWorkStackCursor (after op s)
             = push (didPerformWorkStackCursor s) b f)
  ∨ (k = S k'
     /\ exists f,
          contextStackCursor (after op s) = pop (contextStackCursor s) f
          /\ didPerformWorkStackCursor (after op s)
             = pop (didPerformWorkStackCursor s) f)
  ∨ (k' = k /\ 0 < k
     /\ exists f b,
          didPerformWorkStackCursor (after op s)
          = push (pop (didPerformWorkStackCursor s) f) b f
          /\ (contextStackCursor (after op s) = contextStackCursor s
              ∨ exists m, contextStackCursor (after op s)
                          = push (pop (contextStackCursor s) f) m f)).
Proof.
  intros Hnull Hstep.
  destruct op as [w u m|w u|f|f|f c d|f c|w|w d|f]; simpl in *.
  - injection Hstep as <-. left. split; [done|]. apply cacheContext_frame.
  - injection Hstep as <-. left. split; [done|]. apply getMaskedContext_frame.
  - destruct (isContextProvider f) eqn:Hf.
    + destruct k as [|k]; [done|]. injection Hstep as <-.
      rewrite popContextProvider_run by done. right; right; left.
      split; [done|]. by exists f.
    + injection Hstep as <-. left. unfold popContextProvider. rewrite Hf.
      split; [done | apply sameRegisters_refl].
  - destruct k as [|k]; [done|]. injection Hstep as <-.
    right; right; left. split; [done|]. by exists f.
  - injection Hstep as <-. rewrite pushTopLevelContextObject_run by done.
    right; left. split; [done|]. simpl. by exists f, c, d.
  - injection Hstep as <-. left. split; [done|].
    apply processChildContext_frame.
  - destruct (isContextProvider w) eqn:Hw; injection Hstep as <-.
    + rewrite pushContextProvider_run by done. right; left.
      split; [done|]. simpl. by eexists w, _, _.
    + rewrite pushContextProvider_skip by done. left.
      split; [done | apply sameRegisters_refl].
  - destruct k as [|k]; [done|]. injection Hstep as <-.
    destruct (invalidateContextProvider_registers w d s) as [Hsame|Hrep].
    + by left.
    + right; right; right. split; [done|]. split; [lia|]. by exists w, d.
  - injection Hstep as <-. left. rewrite findCurrentUnmaskedContext_state.
    split; [done | apply sameRegisters_refl].
Qed.

Lemma framesAbove_after op s0 s k k' :
  looselyNull (cursor (contextStackCursor s)) = true ->
  stepDepth k op = Some k' ->
  framesAbove k (contextStackCursor s0) (contextStackCursor s) ->
  framesAbove k (didPerformWorkStackCursor s0) (didPerformWorkStackCursor s) ->
  framesAbove k' (contextStackCursor s0) (contextStackCursor (after op s))
  /\ framesAbove k' (didPerformWorkStackCursor s0)
       (didPerformWorkStackCursor (after op s)).
Proof.
  intros Hnull Hstep Hctx Hdid.
  destruct (registers_after op s k k' Hnull Hstep)
    as [(-> & [-> ->])
       |[(-> & f & v & b & -> & ->)
        |[(-> & f & -> & ->)
         |(-> & Hpos & f & b & -> & Hc)]]].
  - done.
  - split; by apply framesAbove_push.
  - split; by apply framesAbove_pop.
  - destruct k as [|k]; [lia|]. split.
    + destruct Hc as [->|[m ->]]; [done | by apply framesAbove_replace].
    + by apply framesAbove_replace.
Qed.

Lemma framesAbove_afterAll ops : forall s0 s k k',
  looselyNull (cursor (contextStackCursor s)) = true ->
  depthAfter k ops = Some k' ->
  framesAbove k (contextStackCursor s0) (contextStackCursor s) ->
  framesAbove k (didPerformWorkStackCursor s0) (didPerformWorkStackCursor s) ->
  framesAbove k' (contextStackCursor s0) (contextStackCursor (afterAll ops s))
  /\ framesAbove k' (didPerformWorkStackCursor s0)
       (didPerformWorkStackCursor (afterAll ops s)).
Proof.
  unfold afterAll.
  induction ops as [|op ops IH]; intros s0 s k k' Hnull Hdepth Hctx Hdid;
    simpl in *.
  - by injection Hdepth as <-.
  - destruct (stepDepth k op) as [k1|] eqn:Hstep; [|done].
    destruct (framesAbove_after op s0 s k k1 Hnull Hstep Hctx Hdid)
      as [Hctx1 Hdid1].
    apply (IH s0 _ k1 k'); try done.
    by rewrite contextStackCursor_cursor_after.
Qed.

(** X1: a sequence of calls that only pops or invalidates frames it has
    pushed itself never touches the frames that were on the registers
    before it: with [k] of its frames still open, both registers hold
    exactly [k] frames on top of the original ones, and a sequence that
    has closed every frame it opened leaves both registers as they were. *)
Theorem frames_below_untouched ops k s :
  looselyNull (cursor (contextStackCursor s)) = true ->
  depthAfter 0 ops = Some k ->
  drop k (frames (contextStackCursor (afterAll ops s)))
  = frames (contextStackCursor s)
  /\ drop k (frames (didPerformWorkStackCursor (afterAll ops s)))
     = frames (didPerformWorkStackCursor s)
  /\ depth (contextStackCursor (afterAll ops s))
     = k + depth (contextStackCursor s)
  /\ depth (didPerformWorkStackCursor (afterAll ops s))
     = k + depth (didPerformWorkStackCursor s)
  /\ (k = 0 -> sameRegisters s (afterAll ops s)).
Proof.
  intros Hnull Hdepth.
  destruct (framesAbove_afterAll ops s s 0 k Hnull Hdepth
              (framesAbove_refl _) (framesAbove_refl _))
    as [Hctx Hdid].
  pose proof Hctx as (_ & _ & ? & ?). pose proof Hdid as (_ & _ & ? & ?).
  do 4 (split; [done|]).
  intros ->. split; by apply framesAbove_0.
Qed.

(** ** What a provider publishes *)

(** The errors of the key check: a TypeError when there is no
    [childContextTypes] object to test a key against, the invariant
    violation for a key that [in] does not find, nothing else. *)
Lemma checkChildContextKeys_result fiber declared ks s r s' :
  checkChildContextKeys fiber declared ks s = (r, s') ->
  r = Ok tt
  ∨ (r = Throw TypeError /\ declared = None /\ ks ≠ [])
  ∨ exists shape key,
      declared = Some shape /\ key ∈ ks /\ hasProperty shape key = false
      /\ r = Throw
               (InvariantViolation
                  ("%s.getChildContext(): key " ++ doubleQuote ++ "%s"
                   ++ doubleQuote ++ " is not defined in childContextTypes.")
                  [componentNameOrUnknown getComponentName fiber; key]).
Proof.
  revert s s'. induction ks as [|k ks IH]; intros s s'; simpl.
  - intros [= <- _]. by left.
  - destruct declared as [shape|].
    + step_M. destruct (hasProperty shape k) eqn:Hk; simpl.
      * intros H. destruct (IH _ _ H) as [->|[(_ & [=] & _)|
          (shape' & key & [= <-] & Hin & Hout & ->)]]; [by left|].
        right; right. exists shape, key. repeat split; try done. by right.
      * intros [= <- _].
        right; right. exists shape, k. repeat split; try done. left.
    + intros [= <- _]. right; left. by repeat split.
Qed.

(** The state in which [invalidateContextProvider(p, true)] ends when the
    merge succeeds. *)
Lemma invalidateContextProvider_true_ok p s merged s1 :
  is_Some (instances s !! stateNode p) ->
  processChildContext p (previousContext s) s = (Ok merged, s1) ->
  invalidateContextProvider p true s
  = (Ok tt,
     mkState (heap s1)
       (alter (set_memoizedMerged merged) (stateNode p) (instances s1))
       (push (pop (contextStackCursor s1) p) merged p)
       (push (pop (didPerformWorkStackCursor s1) p) true p)
       (previousContext s1)
       (warnedAboutMissingGetChildContext s1) (trace s1)).
Proof.
  intros Hi Hrun. rewrite invalidateContextProvider_true by done.
  by rewrite Hrun.
Qed.

(** X2: once a provider whose [getChildContext] returns declared keys has
    been pushed and invalidated with [didChange = true], a fiber below it
    that is not itself a provider reads a newly allocated context: each
    key holds the provider's value when the provider returned one and
    otherwise the value of the context that was current before the push.
    The provider itself still reads that earlier context, the did-change
    flag reads true, and the new context is memoised on the instance. *)
Theorem provider_publishes_merged p q s i childContext shape :
  isContextProvider p = true ->
  isContextProvider q = false ->
  instances s !! stateNode p = Some i ->
  getChildContext i = Some childContext ->
  childContextTypes (type p) = Some shape ->
  Forall (fun k => k ∈ shape) (keys childContext) ->
  NoDup (keys childContext) ->
  NoDup (keys (deref s (current (contextStackCursor s)))) ->
  exists s1 s2 merged,
    pushContextProvider p s = (Ok true, s1)
    /\ invalidateContextProvider p true s1 = (Ok tt, s2)
    /\ getUnmaskedContext q s2 = merged
    /\ getUnmaskedContext p s2 = current (contextStackCursor s)
    /\ hasContextChanged s2 = true
    /\ (merged ∉ dom (heap s))
    /\ instances s2 !! stateNode p = Some (set_memoizedMerged merged i)
    /\ (forall k,
          get_own k (deref s2 merged)
          = match get_own k childContext with
            | Some v => Some v
            | None => get_own k (deref s (current (contextStackCursor s)))
            end).
Proof.
  intros Hp Hq Hi Hc Hshape Hdecl Hnd Hndp.
  rewrite pushContextProvider_run by done.
  set (s1 := mkState _ _ _ _ _ _ _).
  destruct (processChildContext_callable dev getComponentName p
              (previousContext s1) s1 i childContext (Ok tt) Hi Hc)
    as (s' & Hrun & Hheap & Hinst & [Hctx Hdid] & Hprev).
  { intros s0. rewrite Hshape. by apply checkChildContextKeys_declared. }
  exists s1. eexists. exists (newRef s1).
  rewrite (invalidateContextProvider_true_ok p s1 (newRef s1) s')
    by (done || by exists i).
  destruct (newRef_fresh s1) as [Hfresh _].
  unfold getUnmaskedContext, hasContextChanged. rewrite Hp, Hq. simpl.
  repeat split; try done.
  - simpl. rewrite lookup_alter_eq, Hinst. simpl. by rewrite Hi.
  - intros k. unfold deref at 1. simpl.
    rewrite Hheap, lookup_insert_eq. simpl.
    rewrite !get_own_spread by done. simpl.
    change (deref s1 (current (contextStackCursor s)))
      with (deref s (current (contextStackCursor s))).
    by destruct (get_own k childContext),
         (get_own k (deref s (current (contextStackCursor s)))).
Qed.

(** X3: when [invalidateContextProvider(p, true)] has returned for a
    pushed provider and the provider has been popped, pushing it again
    puts the context computed by that invalidate back on the register
    without computing anything: no collaborator is called, nothing is
    allocated and no instance is written. *)
Theorem provider_reentry_reuses_merged p s s2 :
  isContextProvider p = true ->
  invalidateContextProvider p true (pushContextProvider p s).2 = (Ok tt, s2) ->
  exists s3 s4,
    popContextProvider p s2 = (Ok tt, s3)
    /\ pushContextProvider p s3 = (Ok true, s4)
    /\ current (contextStackCursor s4) = current (contextStackCursor s2)
    /\ trace s4 = trace s2 /\ heap s4 = heap s2
    /\ instances s4 = instances s2.
Proof.
  intros Hp. rewrite pushContextProvider_run by done. simpl.
  set (s1 := mkState _ _ _ _ _ _ _). intros Hinv.
  destruct (instances s1 !! stateNode p) as [i|] eqn:Hi.
  2:{ by rewrite invalidateContextProvider_no_instance in Hinv. }
  rewrite invalidateContextProvider_true in Hinv by eauto.
  destruct (processChildContext_frame dev getComponentName p
              (previousContext s1) s1) as (_ & Hinst & _).
  destruct (processChildContext p (previousContext s1) s1) as [[m|e] s'];
    [|done].
  injection Hinv as <-. simpl in Hinst.
  rewrite popContextProvider_run by done. eexists _, _. split; [done|].
  rewrite pushContextProvider_run by done. subst s1. simpl in *.
  by rewrite lookup_alter_eq, Hinst, Hi.
Qed.

(** X4: a provider whose instance has no [getChildContext] method
    publishes its parent's context itself: after push and
    [invalidateContextProvider(p, true)] the register's current value is
    the very reference that was current before the push, it is what the
    instance memoises, no object is allocated, and the did-change flag
    reads true all the same. *)
Theorem provider_without_method_passes_parent p s i :
  isContextProvider p = true ->
  instances s !! stateNode p = Some i ->
  getChildContext i = None ->
  exists s1 s2,
    pushContextProvider p s = (Ok true, s1)
    /\ invalidateContextProvider p true s1 = (Ok tt, s2)
    /\ current (contextStackCursor s2) = current (contextStackCursor s)
    /\ hasContextChanged s2 = true
    /\ heap s2 = heap s
    /\ instances s2 !! stateNode p
       = Some (set_memoizedMerged (current (contextStackCursor s)) i).
Proof.
  intros Hp Hi Hc. rewrite pushContextProvider_run by done.
  set (s1 := mkState _ _ _ _ _ _ _).
  destruct (processChildContext_without_method dev getComponentName p
              (previousContext s1) s1 i Hi Hc)
    as (s' & Hrun & Hheap & Hinst & _).
  exists s1. eexists.
  rewrite (invalidateContextProvider_true_ok p s1 (previousContext s1) s')
    by (done || by exists i).
  unfold hasContextChanged. simpl. repeat split; try done.
  simpl. rewrite lookup_alter_eq, Hinst. simpl. by rewrite Hi.
Qed.

(** What [processChildContext] can throw. *)
Lemma processChildContext_errors fiber parentContext s e :
  (processChildContext fiber parentContext s).1 = Throw e ->
  e = TypeError
  ∨ exists key,
      e = InvariantViolation
            ("%s.getChildContext(): key " ++ doubleQuote ++ "%s"
             ++ doubleQuote ++ " is not defined in childContextTypes.")
            [componentNameOrUnknown getComponentName fiber; key].
Proof.
  destruct (instances s !! stateNode fiber) as [i|] eqn:Hi.
  - destruct (getChildContext i) as [childContext|] eqn:Hc.
    + destruct (checkChildContextKeys_pure getComponentName fiber
                  (childContextTypes (type fiber)) (keys childContext))
        as [r Hr].
      destruct (processChildContext_callable dev getComponentName fiber
                  parentContext s i childContext r Hi Hc Hr)
        as (s' & -> & _).
      destruct (checkChildContextKeys_result _ _ _ _ _ _ (Hr s))
        as [->|[(-> & _)|(shape & key & _ & _ & _ & ->)]]; simpl.
      * done.
      * intros [= <-]. by left.
      * intros [= <-]. right. by exists key.
    + by destruct (processChildContext_without_method dev getComponentName
                     fiber parentContext s i Hi Hc) as (s' & -> & _).
  - unfold processChildContext; step_M. unfold throw. rewrite Hi.
    intros [= <-]. by left.
Qed.

(** ** Errors of invalidate and of the merge *)

(** X5: [invalidateContextProvider] throws the missing-instance invariant
    violation, leaving the state as it was, exactly when the fiber's
    [stateNode] is null; this holds for either value of [didChange] and
    for any fiber. *)
Theorem invalidateContextProvider_needs_instance p didChange s :
  invalidateContextProvider p didChange s
  = (Throw
       (InvariantViolation
          ("Expected to have an instance by this point. " ++
           "This error is likely caused by a bug in React. Please file an issue.")
          []), s)
  <-> instances s !! stateNode p = None.
Proof.
  split; [|by apply invalidateContextProvider_no_instance].
  destruct (instances s !! stateNode p) as [i|] eqn:Hi; [|done].
  destruct didChange.
  - rewrite invalidateContextProvider_true by eauto.
    pose proof (processChildContext_errors p (previousContext s) s) as Herr.
    destruct (processChildContext p (previousContext s) s) as [[m|e] s1];
      [done|].
    intros [= -> _]. by destruct (Herr _ eq_refl) as [|[key ?]].
  - by rewrite invalidateContextProvider_false by eauto.
Qed.

(** X6: [processChildContext] throws a TypeError, with the state
    unchanged, when the fiber's [stateNode] is null; and it throws a
    TypeError when the instance's [getChildContext] has returned at least
    one key while the fiber's type has no [childContextTypes] for [in] to
    search. *)
Theorem processChildContext_TypeError fiber parentContext s :
  (instances s !! stateNode fiber = None ->
   processChildContext fiber parentContext s = (Throw TypeError, s))
  /\ (forall i childContext,
        instances s !! stateNode fiber = Some i ->
        getChildContext i = Some childContext ->
        childContextTypes (type fiber) = None ->
        keys childContext ≠ [] ->
        (processChildContext fiber parentContext s).1 = Throw TypeError).
Proof.
  split.
  - intros Hi. unfold processChildContext; step_M. unfold throw.
    by rewrite Hi.
  - intros i childContext Hi Hc Hnone Hks.
    destruct (processChildContext_callable dev getComponentName fiber
                parentContext s i childContext (Throw TypeError) Hi Hc)
      as (s' & -> & _); [|done].
    intros s0. rewrite Hnone. by destruct (keys childContext).
Qed.

(** ** What no call ever does *)

Lemma processChildContext_heap fiber parentContext s :
  grownBy (heap s) (heap (processChildContext fiber parentContext s).2)
    (newRef s).
Proof.
  destruct (instances s !! stateNode fiber) as [i|] eqn:Hi.
  - destruct (getChildContext i) as [childContext|] eqn:Hc.
    + destruct (checkChildContextKeys_pure getComponentName fiber
                  (childContextTypes (type fiber)) (keys childContext))
        as [r Hr].
      destruct (processChildContext_callable dev getComponentName fiber
                  parentContext s i childContext r Hi Hc Hr)
        as (s' & -> & Hheap & _).
      simpl. rewrite Hheap. destruct r; [right; eauto | by left].
    + destruct (processChildContext_without_method dev getComponentName
                  fiber parentContext s i Hi Hc) as (s' & -> & Hheap & _).
      simpl. rewrite Hheap. by left.
  - unfold processChildContext; step_M. unfold throw. rewrite Hi. by left.
Qed.

Lemma getMaskedContext_heap w u s :
  grownBy (heap s) (heap (getMaskedContext w u s).2) (newRef s).
Proof.
  destruct (contextTypes (type w)) as [declared|] eqn:Hd.
  - destruct (instances s !! stateNode w) as [i|] eqn:Hi.
    + destruct (decide (__reactInternalMemoizedUnmaskedChildContext i
                        = Some u)) as [Hu|Hu].
      * rewrite (getMaskedContext_hit dev getComponentName w u s declared i)
          by done.
        by left.
      * destruct (getMaskedContext_miss dev getComponentName w u s declared
                    i Hd Hi Hu) as (s' & -> & Hheap & _).
        simpl. rewrite Hheap. right; eauto.
    + destruct (getMaskedContext_no_instance dev getComponentName w u s
                  declared Hd Hi) as (s' & -> & Hheap & _).
      simpl. rewrite Hheap. right; eauto.
  - rewrite getMaskedContext_no_shape by done. by left.
Qed.

Lemma heap_after op s :
  grownBy (heap s) (heap (after op s)) (newRef s).
Proof.
  destruct op as [w u m|w u|f|f|f c d|f c|w|w d|f]; simpl.
  - unfold cacheContext; step_M. unfold modify, throw.
    destruct (instances s !! stateNode w); by left.
  - apply getMaskedContext_heap.
  - unfold popContextProvider. destruct (isContextProvider f); by left.
  - by left.
  - unfold pushTopLevelContextObject; step_M.
    destruct (looselyNull _); by left.
  - apply processChildContext_heap.
  - unfold pushContextProvider. destruct (isContextProvider w); by left.
  - destruct (instances s !! stateNode w) as [i|] eqn:Hi.
    + destruct d.
      * rewrite invalidateContextProvider_true by eauto.
        pose proof (processChildContext_heap w (previousContext s) s) as H.
        by destruct (processChildContext w (previousContext s) s)
             as [[m|e] s1].
      * rewrite invalidateContextProvider_false by eauto. by left.
    + rewrite invalidateContextProvider_no_instance by done. by left.
  - rewrite findCurrentUnmaskedContext_state. by left.
Qed.

(** X7: no sequence of calls ever writes to an object that exists, nor to
    the shared empty object: whatever a live reference (or [emptyObject])
    pointed to before, it points to afterwards.  Contexts are only ever
    created, never updated in place. *)
Theorem live_objects_never_written ops s l :
  l ∈ dom (heap s) ∨ l = emptyObject ->
  heap (afterAll ops s) !! l = heap s !! l.
Proof.
  unfold afterAll. revert s.
  induction ops as [|op ops IH]; intros s Hl; simpl; [done|].
  assert (Hstep : heap (after op s) !! l = heap s !! l
                  /\ (l ∈ dom (heap (after op s)) ∨ l = emptyObject)).
  { destruct (newRef_fresh s) as [Hfresh Hne].
    destruct (heap_after op s) as [->|[o ->]]; [done|].
    rewrite dom_insert_L. split; [|set_solver].
    apply lookup_insert_ne. intros <-. by destruct Hl. }
  destruct Hstep as [<- Hl']. by apply IH.
Qed.

(** What one call does to the instance in slot [j]: nothing, or it sets
    the memoised unmasked/masked pair (caching and masking for a fiber of
    that slot), or it sets the memoised merged context (a [true]
    invalidate of a fiber of that slot). *)
Lemma instances_after op s j :
  instances (after op s) !! j = instances s !! j
  ∨ (exists w u m,
       (op = CacheContext w u m ∨ op = GetMaskedContext w u)
       /\ stateNode w = j
       /\ instances (after op s) !! j
          = set_memoizedUnmaskedMasked u m <$> instances s !! j)
  ∨ (exists w m,
       op = InvalidateContextProvider w true /\ stateNode w = j
       /\ instances (after op s) !! j
          = set_memoizedMerged m <$> instances s !! j).
Proof.
  destruct op as [w u m|w u|f|f|f c d|f c|w|w d|f]; simpl.
  - unfold cacheContext; step_M. unfold modify, throw.
    destruct (instances s !! stateNode w) as [i|] eqn:Hi; simpl; [|by left].
    destruct (decide (stateNode w = j)) as [<-|Hne].
    + right; left. exists w, u, m. rewrite lookup_insert_eq, Hi. eauto.
    + left. by rewrite lookup_insert_ne.
  - destruct (contextTypes (type w)) as [declared|] eqn:Hd.
    + destruct (instances s !! stateNode w) as [i|] eqn:Hi.
      * destruct (decide (__reactInternalMemoizedUnmaskedChildContext i
                          = Some u)) as [Hu|Hu].
        -- rewrite (getMaskedContext_hit dev getComponentName w u s declared
                      i) by done.
           by left.
        -- destruct (getMaskedContext_miss dev getComponentName w u s
                       declared i Hd Hi Hu) as (s' & -> & _ & Hinst & _).
           simpl. rewrite Hinst.
           destruct (decide (stateNode w = j)) as [<-|Hne].
           ++ right; left. exists w, u, (newRef s).
              rewrite lookup_insert_eq, Hi. eauto.
           ++ left. by rewrite lookup_insert_ne.
      * destruct (getMaskedContext_no_instance dev getComponentName w u s
                    declared Hd Hi) as (s' & -> & _ & Hinst & _).
        simpl. rewrite Hinst. by left.
    + rewrite getMaskedContext_no_shape by done. by left.
  - unfold popContextProvider. destruct (isContextProvider f); by left.
  - by left.
  - unfold pushTopLevelContextObject; step_M.
    destruct (looselyNull _); by left.
  - left.
    by destruct (processChildContext_frame dev getComponentName f c s)
         as (_ & -> & _).
  - unfold pushContextProvider. destruct (isContextProvider w); by left.
  - destruct (instances s !! stateNode w) as [i|] eqn:Hi.
    + destruct d.
      * rewrite invalidateContextProvider_true by eauto.
        destruct (processChildContext_frame dev getComponentName w
                    (previousContext s) s) as (_ & Hinst & _).
        destruct (processChildContext w (previousContext s) s)
          as [[m|e] s1]; simpl in *; rewrite Hinst; [|by left].
        destruct (decide (stateNode w = j)) as [<-|Hne].
        -- right; right. exists w, m. by rewrite lookup_alter_eq.
        -- left. by rewrite lookup_alter_ne.
      * rewrite invalidateContextProvider_false by eauto. by left.
    + rewrite invalidateContextProvider_no_instance by done. by left.
  - rewrite findCurrentUnmaskedContext_state. by left.
Qed.

(** X8: no sequence of calls creates or removes an instance, replaces an
    instance's [getChildContext] method, or changes the [context] stored on
    a root: for every slot these are after the calls what they were
    before. *)
Theorem instances_only_memoised_on ops s j :
  (fun i => (getChildContext i, context i))
    <$> instances (afterAll ops s) !! j
  = (fun i => (getChildContext i, context i)) <$> instances s !! j.
Proof.
  unfold afterAll. revert s.
  induction ops as [|op ops IH]; intros s; simpl; [done|].
  rewrite IH.
  destruct (instances_after op s j)
    as [->|[(w & u & m & _ & _ & ->)|(w & m & _ & _ & ->)]]; [done|..];
    by destruct (instances s !! j).
Qed.

(** X9: the memoised merged context of an instance is written by nothing
    but a [true] invalidate of a fiber with that instance, and its
    memoised unmasked/masked pair by nothing but [cacheContext] and
    [getMaskedContext] for such a fiber. *)
Theorem memo_fields_writers op s j :
  ((forall w, op = InvalidateContextProvider w true -> stateNode w ≠ j) ->
   __reactInternalMemoizedMergedChildContext <$> instances (after op s) !! j
   = __reactInternalMemoizedMergedChildContext <$> instances s !! j)
  /\ ((forall w u m, op = CacheContext w u m ∨ op = GetMaskedContext w u ->
                     stateNode w ≠ j) ->
      (fun i => (__reactInternalMemoizedUnmaskedChildContext i,
                 __reactInternalMemoizedMaskedChildContext i))
        <$> instances (after op s) !! j
      = (fun i => (__reactInternalMemoizedUnmaskedChildContext i,
                   __reactInternalMemoizedMaskedChildContext i))
          <$> instances s !! j).
Proof.
  split; intros Hop;
    destruct (instances_after op s j)
      as [->|[(w & u & m & Hw & Hj & ->)|(w & m & Hw & Hj & ->)]];
    try done; try by destruct (instances s !! j).
  - by destruct (Hop w Hw).
  - by destruct (Hop w u m Hw).
Qed.

(** ** The masking cache *)

Lemma cacheContext_run w u m s i :
  instances s !! stateNode w = Some i ->
  cacheContext w u m s
  = (Ok tt,
     set_instances
       (<[stateNode w := set_memoizedUnmaskedMasked u m i]> (instances s)) s).
Proof. intros Hi. unfold cacheContext; step_M. by rewrite Hi. Qed.

(** X10: what [cacheContext] stores for a fiber that declares
    [contextTypes], [getMaskedContext] hands back for the same unmasked
    reference without writing anything, however the masked object was
    obtained; for any other unmasked reference the cache misses and a new
    object is allocated. *)
Theorem cacheContext_then_getMaskedContext w u m s declared :
  contextTypes (type w) = Some declared ->
  is_Some (instances s !! stateNode w) ->
  exists s1,
    cacheContext w u m s = (Ok tt, s1)
    /\ getMaskedContext w u s1 = (Ok (Some m), s1)
    /\ heap s1 = heap s /\ trace s1 = trace s /\ sameRegisters s s1
    /\ (forall u', u' ≠ u ->
          (getMaskedContext w u' s1).1 = Ok (Some (newRef s))).
Proof.
  intros Hd [i Hi]. rewrite (cacheContext_run w u m s i) by done.
  eexists. split; [done|].
  set (s1 := set_instances _ s).
  assert (Hi1 : instances s1 !! stateNode w
                = Some (set_memoizedUnmaskedMasked u m i))
    by apply lookup_insert_eq.
  split; [by rewrite (getMaskedContext_hit dev getComponentName w u s1
                        declared _ Hd Hi1)|].
  repeat split; try done.
  intros u' Hne.
  destruct (getMaskedContext_miss dev getComponentName w u' s1 declared _
              Hd Hi1) as (s2 & -> & _); [simpl; congruence | done].
Qed.

(** X11: [getMaskedContext] never throws, for any fiber, any unmasked
    reference and any state, in particular when the fiber's [stateNode] is
    null; [cacheContext], which it calls only behind its instance check,
    throws a TypeError (writing nothing) exactly when the [stateNode] is
    null. *)
Theorem getMaskedContext_never_throws w E m s :
  (exists r s', getMaskedContext w E s = (Ok r, s'))
  /\ (cacheContext w E m s = (Throw TypeError, s)
      <-> instances s !! stateNode w = None).
Proof.
  clear isFiberMounted. split.
  - destruct (contextTypes (type w)) as [declared|] eqn:Hd.
    + destruct (instances s !! stateNode w) as [i|] eqn:Hi.
      * destruct (decide (__reactInternalMemoizedUnmaskedChildContext i
                          = Some E)) as [Hu|Hu].
        -- eexists _, _.
           by apply (getMaskedContext_hit dev getComponentName w E s
                       declared i).
        -- destruct (getMaskedContext_miss dev getComponentName w E s
                       declared i Hd Hi Hu) as (s' & ? & _).
           by eexists _, _.
      * destruct (getMaskedContext_no_instance dev getComponentName w E s
                    declared Hd Hi) as (s' & ? & _).
        by eexists _, _.
    + eexists _, _. by apply getMaskedContext_no_shape.
  - destruct (instances s !! stateNode w) as [i|] eqn:Hi.
    + by rewrite (cacheContext_run w E m s i).
    + unfold cacheContext; step_M. by rewrite Hi.
Qed.

(** X12: when a fiber that declares [contextTypes] has an instance, then
    after [getMaskedContext] the instance memoises exactly the pair of the
    unmasked reference it was called with and the masked reference it
    returned, whether the cache was hit or missed; the memoised merged
    context and the [getChildContext] method are as before. *)
Theorem getMaskedContext_memoises w E s declared i :
  contextTypes (type w) = Some declared ->
  instances s !! stateNode w = Some i ->
  exists r s' i',
    getMaskedContext w E s = (Ok r, s')
    /\ instances s' !! stateNode w = Some i'
    /\ __reactInternalMemoizedUnmaskedChildContext i' = Some E
    /\ __reactInternalMemoizedMaskedChildContext i' = r
    /\ __reactInternalMemoizedMergedChildContext i'
       = __reactInternalMemoizedMergedChildContext i
    /\ getChildContext i' = getChildContext i.
Proof.
  clear isFiberMounted. intros Hd Hi.
  destruct (decide (__reactInternalMemoizedUnmaskedChildContext i = Some E))
    as [Hu|Hu].
  - exists (__reactInternalMemoizedMaskedChildContext i), s, i.
    by rewrite (getMaskedContext_hit dev getComponentName w E s declared i).
  - destruct (getMaskedContext_miss dev getComponentName w E s declared i
                Hd Hi Hu) as (s' & Hrun & _ & Hinst & _).
    exists (Some (newRef s)), s',
      (set_memoizedUnmaskedMasked E (newRef s) i).
    split; [done|]. by rewrite Hinst, lookup_insert_eq.
Qed.

(** X13: on a cache miss for a fiber with an instance, the masked object
    is new and its own properties are exactly the declared keys.  A
    declared key carries what [unmaskedContext[key]] reads: the unmasked
    object's own value, else the value inherited from [Object.prototype]
    (for a name such as [toString]), else [undefined].  A key that is not
    declared is not an own property of the masked object even when the
    unmasked object has it.  (A declared key named [__proto__] is left
    out: assigning to it does not define a property.) *)
Theorem getMaskedContext_masks w E s declared i :
  contextTypes (type w) = Some declared ->
  instances s !! stateNode w = Some i ->
  __reactInternalMemoizedUnmaskedChildContext i ≠ Some E ->
  exists m s',
    getMaskedContext w E s = (Ok (Some m), s')
    /\ (m ∉ dom (heap s)) /\ m ≠ emptyObject
    /\ (forall k v, k ∈ declared -> k ≠ "__proto__" ->
          get_own k (deref s E) = Some v ->
          get_own k (deref s' m) = Some v)
    /\ (forall k v, k ∈ declared -> k ≠ "__proto__" ->
          (k ∉ keys (deref s E)) -> get_own k objectPrototype = Some v ->
          get_own k (deref s' m) = Some v)
    /\ (forall k, k ∈ declared -> (k ∉ keys (deref s E)) ->
          inherited k = false ->
          get_own k (deref s' m) = Some JsUndefined)
    /\ (forall k, (k ∉ declared) -> get_own k (deref s' m) = None).
Proof.
  clear isFiberMounted. intros Hd Hi Hu.
  destruct (getMaskedContext_miss dev getComponentName w E s declared i
              Hd Hi Hu) as (s' & Hrun & Hheap & _).
  destruct (newRef_fresh s) as [Hfresh Hne].
  exists (newRef s), s'.
  assert (Hobj : forall k,
            get_own k (deref s' (newRef s))
            = if bool_decide (k ∈ declared)
              then Some (get_prop k (deref s E)) else None).
  { intros k. unfold deref at 1. rewrite Hheap, lookup_insert_eq. simpl.
    apply get_own_maskContext. }
  do 3 (split; [done|]). split; [|split; [|split]].
  - intros k v Hk _ Hown. rewrite Hobj, bool_decide_eq_true_2 by done.
    unfold get_prop. by rewrite Hown.
  - intros k v Hk _ Hmissing Hinh.
    rewrite Hobj, bool_decide_eq_true_2 by done.
    unfold get_prop. by rewrite get_own_None, Hinh.
  - intros k Hk Hmissing Hinh. rewrite Hobj, bool_decide_eq_true_2 by done.
    unfold get_prop. rewrite get_own_None by done.
    rewrite get_own_None; [done|].
    by apply bool_decide_eq_false_1 in Hinh.
  - intros k Hk. by rewrite Hobj, bool_decide_eq_false_2.
Qed.

(** ** The missing-method warning *)

(** Every inherited property is a function or an object, so the record
    reads truthy for an inherited name. *)
Lemma warnedAbout_inherited (warned : gset string) name :
  warnedAbout warned name = bool_decide (name ∈ warned) || inherited name.
Proof.
  unfold warnedAbout, inherited. f_equal.
  destruct (get_own name objectPrototype) as [v|] eqn:Hown.
  - rewrite bool_decide_eq_true_2
      by (apply get_own_is_Some; by rewrite Hown).
    simpl in Hown.
    repeat (destruct (decide _) as [_|_];
            [by injection Hown as <- | idtac]).
    done.
  - rewrite bool_decide_eq_false_2; [done|].
    intros Hin%get_own_is_Some. rewrite Hown in Hin. by destruct Hin.
Qed.

Lemma processChildContext_without_method_run fiber parentContext s i :
  instances s !! stateNode fiber = Some i ->
  getChildContext i = None ->
  processChildContext fiber parentContext s
  = (Ok parentContext,
     if dev
        && negb (warnedAbout (warnedAboutMissingGetChildContext s)
                   (componentNameOrUnknown getComponentName fiber))
     then
       mkState (heap s) (instances s) (contextStackCursor s)
         (didPerformWorkStackCursor s) (previousContext s)
         ({[componentNameOrUnknown getComponentName fiber]}
          ∪ warnedAboutMissingGetChildContext s)
         (EvWarning
            ("%s.childContextTypes is specified but there is no getChildContext() method "
             ++ "on the instance. You can either define getChildContext() on %s or remove "
             ++ "childContextTypes from it.")
            [componentNameOrUnknown getComponentName fiber;
             componentNameOrUnknown getComponentName fiber]
          :: trace s)
     else s).
Proof.
  intros Hi Hc. unfold processChildContext; step_M. rewrite Hi, Hc.
  unfold warnMissingGetChildContext, when, bind, gets, modify, emit, ret.
  destruct dev; simpl; [|done].
  by destruct (warnedAbout _ _).
Qed.

(** X14: the warning about a missing [getChildContext] method is emitted
    at most once per component name.  A call for an instance without the
    method returns the parent context and records one warning naming the
    component when it runs in development and the record of names warned
    about reads falsy for this name, that is when the name has not been
    recorded and is not the name of a property every object inherits (a
    component called [toString] or [constructor] is never warned about).
    A further call for any fiber of the same component name returns its
    parent context and changes nothing at all. *)
Theorem missing_method_warned_once f1 f2 c1 c2 s i1 i2 :
  instances s !! stateNode f1 = Some i1 ->
  getChildContext i1 = None ->
  instances s !! stateNode f2 = Some i2 ->
  getChildContext i2 = None ->
  componentNameOrUnknown getComponentName f1
  = componentNameOrUnknown getComponentName f2 ->
  exists s1,
    processChildContext f1 c1 s = (Ok c1, s1)
    /\ processChildContext f2 c2 s1 = (Ok c2, s1)
    /\ trace s1
       = if dev
            && negb (bool_decide
                       (componentNameOrUnknown getComponentName f1
                        ∈ warnedAboutMissingGetChildContext s))
            && negb (inherited (componentNameOrUnknown getComponentName f1))
         then
           EvWarning
             ("%s.childContextTypes is specified but there is no getChildContext() method "
              ++ "on the instance. You can either define getChildContext() on %s or remove "
              ++ "childContextTypes from it.")
             [componentNameOrUnknown getComponentName f1;
              componentNameOrUnknown getComponentName f1]
           :: trace s
         else trace s.
Proof.
  clear isFiberMounted. intros Hi1 Hc1 Hi2 Hc2 Hname.
  rewrite (processChildContext_without_method_run f1 c1 s i1) by done.
  eexists. split; [done|].
  rewrite <- andb_assoc, <- negb_orb.
  rewrite <- (warnedAbout_inherited (warnedAboutMissingGetChildContext s)).
  destruct (dev && negb (warnedAbout _ _)) eqn:Hfirst.
  - rewrite (processChildContext_without_method_run f2 c2 _ i2) by done.
    simpl. rewrite <- Hname.
    assert (Hnow : warnedAbout
                     ({[componentNameOrUnknown getComponentName f1]}
                      ∪ warnedAboutMissingGetChildContext s)
                     (componentNameOrUnknown getComponentName f1) = true).
    { unfold warnedAbout. rewrite bool_decide_eq_true_2 by set_solver.
      done. }
    by rewrite Hnow, andb_false_r.
  - rewrite (processChildContext_without_method_run f2 c2 s i2) by done.
    by rewrite <- Hname, Hfirst.
Qed.

(** ** Errors of the ancestor walk *)

(** The walk itself throws nothing but a TypeError or the
    detached-subtree invariant violation. *)
Lemma findFrom_errors node s e :
  (findFrom node s).1 = Throw e ->
  e = TypeError
  ∨ e = InvariantViolation
          ("Found unexpected detached subtree parent. " ++
           "This error is likely caused by a bug in React. Please file an issue.")
          [].
Proof.
  induction node as [node IH] using Fiber_return_ind.
  rewrite findFrom_unfold. step_M. unfold ret, throw.
  destruct (bool_decide (tag node = HostRoot)).
  { destruct (instances s !! stateNode node); simpl; [done|].
    intros [= <-]. by left. }
  destruct (isContextProvider node).
  { destruct (instances s !! stateNode node); simpl; [done|].
    intros [= <-]. by left. }
  destruct (return_ node) as [parent|]; [by apply IH|].
  simpl. intros [= <-]. by right.
Qed.

(** X15: [findCurrentUnmaskedContext] throws its mounted-class-component
    invariant violation exactly when the fiber is not mounted or is not a
    class component; it then has not looked at any ancestor and the state
    is as before. *)
Theorem findCurrentUnmaskedContext_guard fiber s :
  findCurrentUnmaskedContext fiber s
  = (Throw
       (InvariantViolation
          ("Expected subtree parent to be a mounted class component. " ++
           "This error is likely caused by a bug in React. Please file an issue.")
          []), s)
  <-> isFiberMounted fiber && bool_decide (tag fiber = ClassComponent) = false.
Proof.
  unfold findCurrentUnmaskedContext; step_M.
  destruct (_ && _); simpl; [|done].
  pose proof (findFrom_errors fiber s) as Herr.
  destruct (findFrom fiber s) as [[r|e] s']; simpl in *; [done|].
  split; [|done]. intros [= -> _]. by destruct (Herr _ eq_refl).
Qed.

(** X16: when the first node the walk cannot pass over (a provider or the
    host root) has a null [stateNode], [findCurrentUnmaskedContext] throws
    a TypeError instead of returning a context. *)
Theorem findCurrentUnmaskedContext_null_stateNode fiber s below node above :
  isFiberMounted fiber = true ->
  tag fiber = ClassComponent ->
  walkUp fiber = (below ++ node :: above)%list ->
  Forall passedOver below ->
  tag node = HostRoot ∨ isContextProvider node = true ->
  instances s !! stateNode node = None ->
  findCurrentUnmaskedContext fiber s = (Throw TypeError, s).
Proof.
  intros Hm Ht Hwalk Hbelow Hstop Hi.
  unfold findCurrentUnmaskedContext, bind at 1, invariant.
  rewrite Hm, bool_decide_eq_true_2 by done. simpl.
  rewrite (findFrom_along s below fiber node above) by done.
  rewrite findFrom_unfold.
  destruct (bool_decide (tag node = HostRoot)) eqn:Hroot.
  - step_M. by rewrite Hi.
  - destruct Hstop as [Hr | Hprov].
    + by rewrite bool_decide_eq_true_2 in Hroot.
    + rewrite Hprov. step_M. by rewrite Hi.
Qed.

(** ** The order of the merged keys *)

Lemma filter_agree {A} (P Q : A -> Prop) `{!forall x, Decision (P x)}
  `{!forall x, Decision (Q x)} (l : list A) :
  (forall x, x ∈ l -> P x <-> Q x) -> filter P l = filter Q l.
Proof.
  induction l as [|x l IH]; intros Hagree; [done|].
  rewrite !filter_cons.
  rewrite IH by (intros y Hy; apply Hagree; by right).
  destruct (decide (P x)) as [HP|HP], (decide (Q x)) as [HQ|HQ]; try done;
    destruct (Hagree x); try left; tauto.
Qed.

(** Spreading names that are not array indices keeps the target's keys
    in place and appends the source's new keys in the source's order. *)
Lemma keys_spread (src target : Obj) :
  NoDup (keys src) ->
  Forall (fun k => arrayIndex k = None) (keys src) ->
  keys (spread src target)
  = (keys target ++ filter (fun k => k ∉ keys target) (keys src))%list.
Proof.
  unfold spread. revert target.
  induction src as [|[k0 v0] src IH]; intros target Hnd Hidx.
  - unfold keys at 3. csimpl. by rewrite app_nil_r.
  - assert (Hk : keys ((k0, v0) :: src) = k0 :: keys src) by done.
    rewrite Hk in *. clear Hk.
    apply NoDup_cons in Hnd as [Hfresh Hnd].
    apply Forall_cons in Hidx as [Hk0 Hidx].
    change (fold_left (fun acc kv => set_prop kv.1 kv.2 acc) ((k0, v0) :: src) target)
      with (fold_left (fun acc kv => set_prop kv.1 kv.2 acc) src (set_prop k0 v0 target)).
    rewrite IH by done. rewrite keys_set_prop by done.
    destruct (bool_decide (k0 ∈ keys target)) eqn:Hin.
    + apply bool_decide_eq_true_1 in Hin.
      by rewrite filter_cons_False by tauto.
    + apply bool_decide_eq_false_1 in Hin.
      rewrite filter_cons_True by done. rewrite <- app_assoc. simpl.
      do 2 f_equal. apply filter_agree. intros k Hk.
      rewrite elem_of_app, list_elem_of_singleton.
      split; [tauto|]. intros Hout [? | ->]; done.
Qed.

Lemma filter_absent_from_empty (l : list string) :
  filter (fun k => k ∉ keys []) l = l.
Proof.
  induction l as [|k l IH]; [done|].
  rewrite filter_cons_True by by intros ?%elem_of_nil.
  by rewrite IH.
Qed.

(** X17: when no key of the parent context or of the child contribution
    is an array index, the merged object enumerates the parent's keys
    first, in the parent's order, followed by the keys that only the child
    contribution has, in the contribution's order.  (Array indices would
    come first, in ascending order.) *)
Theorem processChildContext_key_order fiber parentContext s i childContext
  shape :
  instances s !! stateNode fiber = Some i ->
  getChildContext i = Some childContext ->
  childContextTypes (type fiber) = Some shape ->
  Forall (fun k => k ∈ shape) (keys childContext) ->
  NoDup (keys childContext) ->
  NoDup (keys (deref s parentContext)) ->
  Forall (fun k => arrayIndex k = None) (keys childContext) ->
  Forall (fun k => arrayIndex k = None) (keys (deref s parentContext)) ->
  exists merged s',
    processChildContext fiber parentContext s = (Ok merged, s')
    /\ keys (deref s' merged)
       = (keys (deref s parentContext)
          ++ filter (fun k => k ∉ keys (deref s parentContext))
               (keys childContext))%list.
Proof.
  intros Hi Hc Hshape Hdecl Hnd Hndp Hidx Hidxp.
  destruct (processChildContext_callable dev getComponentName fiber
              parentContext s i childContext (Ok tt) Hi Hc)
    as (s' & Hrun & Hheap & _).
  { intros s0. rewrite Hshape. by apply checkChildContextKeys_declared. }
  exists (newRef s), s'. split; [done|].
  unfold deref at 1. rewrite Hheap, lookup_insert_eq. simpl.
  rewrite keys_spread by done.
  assert (Hparent : keys (spread (deref s parentContext) [])
                    = keys (deref s parentContext)).
  { rewrite keys_spread by done. apply filter_absent_from_empty. }
  by rewrite Hparent.
Qed.

(** ** Calls of the contribution callback *)

Lemma processChildContext_calls fiber parentContext s j :
  callsOfGetChildContext j (trace (processChildContext fiber parentContext s).2)
  = callsOfGetChildContext j (trace s)
    + (if bool_decide (stateNode fiber = j) && hasGetChildContext s j
       then 1 else 0).
Proof.
  unfold hasGetChildContext.
  destruct (instances s !! stateNode fiber) as [i|] eqn:Hi.
  - destruct (getChildContext i) as [childContext|] eqn:Hc.
    + destruct (checkChildContextKeys_pure getComponentName fiber
                  (childContextTypes (type fiber)) (keys childContext))
        as [r Hr].
      unfold processChildContext, bind at 1, readStateNode, gets.
      rewrite Hi, Hc.
      unfold when, bind, emit, modify, ret, alloc, gets.
      destruct (decide (stateNode fiber = j)) as [<-|Hne].
      * rewrite bool_decide_eq_true_2, Hi, Hc by done. simpl.
        destruct dev; simpl; rewrite Hr; destruct r; simpl;
          rewrite decide_True by done; lia.
      * rewrite bool_decide_eq_false_2 by done. simpl.
        destruct dev; simpl; rewrite Hr; destruct r; simpl;
          rewrite decide_False by done; lia.
    + rewrite (processChildContext_without_method_run fiber parentContext s
                 i) by done.
      assert (Hnone : bool_decide (stateNode fiber = j)
                      && match instances s !! j with
                         | Some i0 => bool_decide (getChildContext i0 ≠ None)
                         | None => false
                         end = false).
      { destruct (decide (stateNode fiber = j)) as [<-|Hne].
        - rewrite Hi, Hc. by rewrite andb_false_r.
        - by rewrite bool_decide_eq_false_2. }
      rewrite Hnone. destruct (dev && _); simpl; lia.
  - unfold processChildContext; step_M. unfold throw. rewrite Hi. simpl.
    destruct (decide (stateNode fiber = j)) as [<-|Hne].
    + rewrite Hi, andb_false_r. lia.
    + rewrite bool_decide_eq_false_2 by done. simpl. lia.
Qed.

Lemma getMaskedContext_calls w u s j :
  callsOfGetChildContext j (trace (getMaskedContext w u s).2)
  = callsOfGetChildContext j (trace s).
Proof.
  unfold getMaskedContext.
  destruct (contextTypes (type w)) as [declared|]; [|done].
  step_M. unfold alloc, when, emit, modify, ret, cacheContext.
  step_M. unfold modify, throw.
  destruct (memoizedFor _ _); [done|].
  destruct dev; simpl;
    destruct (instances s !! stateNode w) as [i|] eqn:Hi; simpl;
    by rewrite ?Hi.
Qed.

(** X18: a call of the module invokes [getChildContext] on an instance
    exactly once when it is [processChildContext] or a [true] invalidate
    for a fiber whose instance has the method, even if the merge then
    throws on an undeclared key, and never otherwise: pushing, popping,
    masking, caching, a [false] invalidate and the ancestor walk do not
    call it. *)
Theorem getChildContext_called_once op s j :
  callsOfGetChildContext j (trace (after op s))
  = callsOfGetChildContext j (trace s)
    + (if invokesGetChildContext s op j then 1 else 0).
Proof.
  destruct op as [w u m|w u|f|f|f c d|f c|w|w d|f]; simpl.
  - unfold cacheContext; step_M. unfold modify, throw.
    destruct (instances s !! stateNode w); simpl; lia.
  - rewrite getMaskedContext_calls. lia.
  - unfold popContextProvider. destruct (isContextProvider f); simpl; lia.
  - lia.
  - unfold pushTopLevelContextObject; step_M.
    destruct (looselyNull _); simpl; lia.
  - apply processChildContext_calls.
  - unfold pushContextProvider. destruct (isContextProvider w); simpl; lia.
  - destruct (instances s !! stateNode w) as [i|] eqn:Hi.
    + destruct d.
      * rewrite invalidateContextProvider_true by eauto.
        pose proof (processChildContext_calls w (previousContext s) s j) as H.
        by destruct (processChildContext w (previousContext s) s)
             as [[m|e] s1].
      * rewrite invalidateContextProvider_false by eauto. simpl. lia.
    + rewrite invalidateContextProvider_no_instance by done. simpl.
      destruct d; [|lia]. unfold hasGetChildContext.
      destruct (decide (stateNode w = j)) as [<-|Hne].
      * rewrite Hi, andb_false_r. lia.
      * rewrite bool_decide_eq_false_2 by done. simpl. lia.
  - rewrite findCurrentUnmaskedContext_state. lia.
Qed.

End Further.

(** * Diagnostics do not steer the module *)

Section Diagnostics.

Variables dev1 dev2 : bool.
Variables name1 name2 : Fiber -> option string.
Variable isFiberMounted : Fiber -> bool.

Lemma observable_inv s1 s2 :
  observable s1 = observable s2 ->
  heap s1 = heap s2 /\ instances s1 = instances s2
  /\ sameRegisters s2 s1 /\ previousContext s1 = previousContext s2.
Proof. unfold observable. intros [= ? ? ? ? ?]. by repeat split. Qed.

Lemma observable_intro s1 s2 :
  heap s1 = heap s2 -> instances s1 = instances s2 ->
  sameRegisters s2 s1 -> previousContext s1 = previousContext s2 ->
  observable s1 = observable s2.
Proof. unfold observable. intros -> -> [-> ->] ->. done. Qed.

(** The key check accepts or rejects whatever names components by. *)
Lemma checkChildContextKeys_agree fiber declared ks :
  exists r1 r2,
    (forall s, checkChildContextKeys name1 fiber declared ks s = (r1, s))
    /\ (forall s, checkChildContextKeys name2 fiber declared ks s = (r2, s))
    /\ ((r1 = Ok tt /\ r2 = Ok tt)
        ∨ exists e1 e2, r1 = Throw e1 /\ r2 = Throw e2).
Proof.
  destruct declared as [shape|].
  - destruct (first_not_found shape ks)
      as [Hall|(before & key & rest & -> & Hb & Hk)].
    + exists (Ok tt), (Ok tt).
      repeat split; try (intros s; by apply checkChildContextKeys_found).
      by left.
    + eexists _, _.
      repeat split;
        try (intros s; by apply checkChildContextKeys_not_found).
      right. eauto.
  - destruct ks as [|k ks].
    + exists (Ok tt), (Ok tt). repeat split; by left.
    + exists (Throw TypeError), (Throw TypeError). repeat split. right. eauto.
Qed.

Lemma processChildContext_observable fiber parentContext s1 s2 :
  observable s1 = observable s2 ->
  observable (processChildContext dev1 name1 fiber parentContext s1).2
  = observable (processChildContext dev2 name2 fiber parentContext s2).2
  /\ (forall merged,
        (processChildContext dev1 name1 fiber parentContext s1).1 = Ok merged
        <-> (processChildContext dev2 name2 fiber parentContext s2).1
            = Ok merged).
Proof.
  intros Hobs. destruct (observable_inv _ _ Hobs) as (Hh & Hi & Hr & Hp).
  assert (Hnew : newRef s1 = newRef s2) by (unfold newRef; by rewrite Hh).
  assert (Hderef : deref s1 parentContext = deref s2 parentContext)
    by (unfold deref; by rewrite Hh).
  destruct (instances s1 !! stateNode fiber) as [i|] eqn:Hi1.
  - assert (Hi2 : instances s2 !! stateNode fiber = Some i) by by rewrite <- Hi.
    destruct (getChildContext i) as [childContext|] eqn:Hc.
    + destruct (checkChildContextKeys_agree fiber
                  (childContextTypes (type fiber)) (keys childContext))
        as (r1 & r2 & Hr1 & Hr2 & Hagree).
      destruct (processChildContext_callable dev1 name1 fiber parentContext
                  s1 i childContext r1 Hi1 Hc Hr1)
        as (t1 & -> & Hh1 & Hinst1 & Hreg1 & Hp1).
      destruct (processChildContext_callable dev2 name2 fiber parentContext
                  s2 i childContext r2 Hi2 Hc Hr2)
        as (t2 & -> & Hh2 & Hinst2 & Hreg2 & Hp2).
      simpl. split.
      * apply observable_intro; try congruence.
        -- rewrite Hh1, Hh2.
           destruct Hagree as [[-> ->]|(e1 & e2 & -> & ->)]; congruence.
        -- destruct Hreg1, Hreg2, Hr. split; congruence.
      * intros merged.
        destruct Hagree as [[-> ->]|(e1 & e2 & -> & ->)]; [|done].
        by rewrite Hnew.
    + destruct (processChildContext_without_method dev1 name1 fiber
                  parentContext s1 i Hi1 Hc)
        as (t1 & -> & Hh1 & Hinst1 & Hreg1 & Hp1 & _).
      destruct (processChildContext_without_method dev2 name2 fiber
                  parentContext s2 i Hi2 Hc)
        as (t2 & -> & Hh2 & Hinst2 & Hreg2 & Hp2 & _).
      simpl. split; [|done].
      apply observable_intro; try congruence.
      destruct Hreg1, Hreg2, Hr. split; congruence.
  - assert (Hi2 : instances s2 !! stateNode fiber = None) by by rewrite <- Hi.
    unfold processChildContext; step_M. unfold throw. rewrite Hi1, Hi2.
    by simpl.
Qed.

Lemma getMaskedContext_observable w u s1 s2 :
  observable s1 = observable s2 ->
  observable (getMaskedContext dev1 name1 w u s1).2
  = observable (getMaskedContext dev2 name2 w u s2).2
  /\ (getMaskedContext dev1 name1 w u s1).1
     = (getMaskedContext dev2 name2 w u s2).1.
Proof.
  intros Hobs. destruct (observable_inv _ _ Hobs) as (Hh & Hi & Hr & Hp).
  assert (Hnew : newRef s1 = newRef s2) by (unfold newRef; by rewrite Hh).
  assert (Hderef : deref s1 u = deref s2 u) by (unfold deref; by rewrite Hh).
  destruct (contextTypes (type w)) as [declared|] eqn:Hd.
  - destruct (instances s1 !! stateNode w) as [i|] eqn:Hi1.
    + assert (Hi2 : instances s2 !! stateNode w = Some i) by by rewrite <- Hi.
      destruct (decide (__reactInternalMemoizedUnmaskedChildContext i
                        = Some u)) as [Hu|Hu].
      * rewrite (getMaskedContext_hit dev1 name1 w u s1 declared i) by done.
        by rewrite (getMaskedContext_hit dev2 name2 w u s2 declared i).
      * destruct (getMaskedContext_miss dev1 name1 w u s1 declared i Hd Hi1
                    Hu) as (t1 & -> & Hh1 & Hinst1 & Hreg1 & Hp1).
        destruct (getMaskedContext_miss dev2 name2 w u s2 declared i Hd Hi2
                    Hu) as (t2 & -> & Hh2 & Hinst2 & Hreg2 & Hp2).
        simpl. split; [|by rewrite Hnew].
        apply observable_intro; try congruence.
        destruct Hreg1, Hreg2, Hr. split; congruence.
    + assert (Hi2 : instances s2 !! stateNode w = None) by by rewrite <- Hi.
      destruct (getMaskedContext_no_instance dev1 name1 w u s1 declared Hd
                  Hi1) as (t1 & -> & Hh1 & Hinst1 & Hreg1 & Hp1).
      destruct (getMaskedContext_no_instance dev2 name2 w u s2 declared Hd
                  Hi2) as (t2 & -> & Hh2 & Hinst2 & Hreg2 & Hp2).
      simpl. split; [|by rewrite Hnew].
      apply observable_intro; try congruence.
      destruct Hreg1, Hreg2, Hr. split; congruence.
  - by rewrite !getMaskedContext_no_shape.
Qed.

Lemma after_observable op s1 s2 :
  observable s1 = observable s2 ->
  observable (after dev1 name1 isFiberMounted op s1)
  = observable (after dev2 name2 isFiberMounted op s2).
Proof.
  intros Hobs. pose proof (observable_inv _ _ Hobs) as (Hh & Hi & Hr & Hp).
  destruct op as [w u m|w u|f|f|f c d|f c|w|w d|f]; simpl.
  - unfold cacheContext; step_M. unfold modify, throw. rewrite Hi.
    destruct (instances s2 !! stateNode w); simpl; [|done].
    unfold observable in *. simpl. congruence.
  - by apply getMaskedContext_observable.
  - unfold popContextProvider, modify, ret.
    destruct (isContextProvider f); simpl; [|done].
    unfold observable in *. simpl. destruct Hr. congruence.
  - unfold observable in *. simpl. destruct Hr. congruence.
  - unfold pushTopLevelContextObject; step_M. unfold modify, ret, throw.
    destruct Hr as [Hc Hd]. rewrite Hc.
    destruct (looselyNull _); simpl; [|done].
    unfold observable in *. simpl. congruence.
  - by apply processChildContext_observable.
  - unfold pushContextProvider; step_M. unfold modify, ret.
    destruct (isContextProvider w); simpl; [|done].
    unfold observable in *. simpl. destruct Hr. congruence.
  - destruct (instances s1 !! stateNode w) as [i|] eqn:Hi1.
    + assert (Hi2 : instances s2 !! stateNode w = Some i) by by rewrite <- Hi.
      destruct d.
      * rewrite !invalidateContextProvider_true by eauto. rewrite Hp.
        destruct (processChildContext_observable w (previousContext s2)
                    s1 s2 Hobs) as [Hstate Hres].
        destruct (processChildContext dev1 name1 w (previousContext s2) s1)
          as [[m1|e1] t1],
          (processChildContext dev2 name2 w (previousContext s2) s2)
          as [[m2|e2] t2]; simpl in *.
        -- assert (m2 = m1) as -> by (destruct (Hres m1) as [H _];
                                      by injection (H eq_refl)).
           unfold observable in *. simpl. congruence.
        -- by destruct (Hres m1) as [H _]; specialize (H eq_refl).
        -- by destruct (Hres m2) as [_ H]; specialize (H eq_refl).
        -- done.
      * rewrite !invalidateContextProvider_false by eauto.
        unfold observable in *. simpl. destruct Hr. congruence.
    + assert (Hi2 : instances s2 !! stateNode w = None) by by rewrite <- Hi.
      by rewrite !invalidateContextProvider_no_instance.
  - by rewrite !findCurrentUnmaskedContext_state.
Qed.

(** X19: development mode and the naming of components only show in the
    diagnostics.  Two runs of the same calls, one with any setting of
    [__DEV__] and any [getComponentName], the other with any other, started
    from states with the same heap, instances, registers and
    previous-context slot, end with the same heap, instances, registers
    and slot. *)
Theorem diagnostics_do_not_steer ops s1 s2 :
  observable s1 = observable s2 ->
  observable (afterAll dev1 name1 isFiberMounted ops s1)
  = observable (afterAll dev2 name2 isFiberMounted ops s2).
Proof.
  unfold afterAll. revert s1 s2.
  induction ops as [|op ops IH]; intros s1 s2 Hobs; simpl; [done|].
  by apply IH, after_observable.
Qed.

(** X20: what the two value-returning operations return does not depend
    on development mode or on the naming of components: called in states
    that agree on heap, instances, registers and slot, [getMaskedContext]
    returns the same reference, and [processChildContext] returns a merged
    context in one run exactly when it returns the same one in the other. *)
Theorem results_same_in_production w u f c s1 s2 :
  observable s1 = observable s2 ->
  (getMaskedContext dev1 name1 w u s1).1
  = (getMaskedContext dev2 name2 w u s2).1
  /\ (forall merged,
        (processChildContext dev1 name1 f c s1).1 = Ok merged
        <-> (processChildContext dev2 name2 f c s2).1 = Ok merged).
Proof.
  intros Hobs. split.
  - by apply getMaskedContext_observable.
  - by apply processChildContext_observable.
Qed.

End Diagnostics.

(** * The further properties on the demo tree *)

Lemma frames_below_untouched_witness :
  sameRegisters insideMessageList
    (afterAll true demoName demoMounted
       [PushContextProvider testFiber;
        InvalidateContextProvider testFiber true;
        PushContextProvider muteProviderFiber;
        InvalidateContextProvider muteProviderFiber false;
        PopContextProvider muteProviderFiber;
        PopContextProvider testFiber] insideMessageList).
Proof.
  destruct (frames_below_untouched true demoName demoMounted
              [PushContextProvider testFiber;
               InvalidateContextProvider testFiber true;
               PushContextProvider muteProviderFiber;
               InvalidateContextProvider muteProviderFiber false;
               PopContextProvider muteProviderFiber;
               PopContextProvider testFiber] 0 insideMessageList)
    as (_ & _ & _ & _ & Hsame).
  - reflexivity.
  - reflexivity.
  - exact (Hsame eq_refl).
Defined.

Lemma provider_publishes_merged_witness :
  exists s1 s2 merged,
    pushContextProvider testFiber insideMessageList = (Ok true, s1)
    /\ invalidateContextProvider true demoName testFiber true s1 = (Ok tt, s2)
    /\ getUnmaskedContext buttonFiber s2 = merged
    /\ hasContextChanged s2 = true
    /\ get_own "color" (deref s2 merged) = Some (JsStr "red").
Proof.
  destruct (provider_publishes_merged true demoName testFiber buttonFiber
              insideMessageList testInstance [("color", JsStr "red")]
              ["color"])
    as (s1 & s2 & merged & H1 & H2 & H3 & _ & H5 & _ & _ & Hkey).
  - reflexivity.
  - reflexivity.
  - reflexivity.
  - reflexivity.
  - reflexivity.
  - repeat constructor.
  - vm_compute. repeat constructor. by intros ?%elem_of_nil.
  - vm_compute. repeat constructor. by intros ?%elem_of_nil.
  - exists s1, s2, merged. repeat split; try assumption.
    rewrite Hkey. reflexivity.
Defined.

Lemma provider_reentry_reuses_merged_witness :
  exists s3 s4,
    popContextProvider testFiber
      (invalidateContextProvider true demoName testFiber true
         (pushContextProvider testFiber insideMessageList).2).2
    = (Ok tt, s3)
    /\ pushContextProvider testFiber s3 = (Ok true, s4)
    /\ current (contextStackCursor s4)
       = current
           (contextStackCursor
              (invalidateContextProvider true demoName testFiber true
                 (pushContextProvider testFiber insideMessageList).2).2).
Proof.
  destruct (provider_reentry_reuses_merged true demoName testFiber
              insideMessageList
              (invalidateContextProvider true demoName testFiber true
                 (pushContextProvider testFiber insideMessageList).2).2)
    as (s3 & s4 & H1 & H2 & H3 & _).
  - reflexivity.
  - vm_compute. reflexivity.
  - exists s3, s4. repeat split; assumption.
Defined.

Lemma provider_without_method_passes_parent_witness :
  exists s1 s2,
    pushContextProvider muteProviderFiber insideMessageList = (Ok true, s1)
    /\ invalidateContextProvider true demoName muteProviderFiber true s1
       = (Ok tt, s2)
    /\ current (contextStackCursor s2)
       = current (contextStackCursor insideMessageList).
Proof.
  destruct (provider_without_method_passes_parent true demoName
              muteProviderFiber insideMessageList plainInstance)
    as (s1 & s2 & H1 & H2 & H3 & _).
  - reflexivity.
  - reflexivity.
  - reflexivity.
  - exists s1, s2. repeat split; assumption.
Defined.

Lemma processChildContext_TypeError_witness :
  processChildContext true demoName pendingProviderFiber emptyObject demoState
  = (Throw TypeError, demoState).
Proof.
  apply (proj1 (processChildContext_TypeError true demoName
                  pendingProviderFiber emptyObject demoState)).
  reflexivity.
Defined.

Lemma live_objects_never_written_witness :
  heap (afterAll true demoName demoMounted demoVisit demoState) !! 10%positive
  = heap demoState !! 10%positive.
Proof.
  apply (live_objects_never_written true demoName demoMounted demoVisit
           demoState 10%positive).
  left. apply elem_of_dom. exists [("color", JsStr "purple")]. reflexivity.
Defined.

Lemma memo_fields_writers_witness :
  __reactInternalMemoizedMergedChildContext
    <$> instances
          (after true demoName demoMounted
             (GetMaskedContext buttonFiber 11%positive) demoState)
        !! 6%positive
  = __reactInternalMemoizedMergedChildContext
      <$> instances demoState !! 6%positive.
Proof.
  apply (proj1 (memo_fields_writers true demoName demoMounted
                  (GetMaskedContext buttonFiber 11%positive) demoState
                  6%positive)).
  intros w. discriminate.
Defined.

Lemma cacheContext_then_getMaskedContext_witness :
  exists s1,
    cacheContext buttonFiber 11%positive 10%positive demoState = (Ok tt, s1)
    /\ getMaskedContext true demoName buttonFiber 11%positive s1
       = (Ok (Some 10%positive), s1).
Proof.
  destruct (cacheContext_then_getMaskedContext true demoName buttonFiber
              11%positive 10%positive demoState ["color"])
    as (s1 & H1 & H2 & _).
  - reflexivity.
  - exists plainInstance. reflexivity.
  - exists s1. split; assumption.
Defined.

Lemma getMaskedContext_memoises_witness :
  exists r s' i',
    getMaskedContext true demoName buttonFiber 11%positive demoState
    = (Ok r, s')
    /\ instances s' !! 6%positive = Some i'
    /\ __reactInternalMemoizedUnmaskedChildContext i' = Some 11%positive
    /\ __reactInternalMemoizedMaskedChildContext i' = r.
Proof.
  destruct (getMaskedContext_memoises true demoName buttonFiber 11%positive
              demoState ["color"] plainInstance)
    as (r & s' & i' & H1 & H2 & H3 & H4 & _).
  - reflexivity.
  - reflexivity.
  - exists r, s', i'. repeat split; assumption.
Defined.

Lemma getMaskedContext_masks_witness :
  exists m s',
    getMaskedContext true demoName buttonFiber emptyObject demoState
    = (Ok (Some m), s')
    /\ get_own "color" (deref s' m) = Some JsUndefined
    /\ get_own "size" (deref s' m) = None.
Proof.
  destruct (getMaskedContext_masks true demoName buttonFiber emptyObject
              demoState ["color"] plainInstance)
    as (m & s' & H1 & _ & _ & _ & _ & Hmissing & Hhidden).
  - reflexivity.
  - reflexivity.
  - discriminate.
  - exists m, s'. repeat split; [assumption | |].
    + apply Hmissing;
        [left | vm_compute; by intros ?%elem_of_nil | reflexivity].
    + apply Hhidden.
      intros [H|H]%elem_of_cons; [discriminate H | by apply elem_of_nil in H].
Defined.

Lemma missing_method_warned_once_witness :
  exists s1,
    processChildContext true demoName muteProviderFiber 10%positive demoState
    = (Ok 10%positive, s1)
    /\ processChildContext true demoName muteProviderFiber 11%positive s1
       = (Ok 11%positive, s1)
    /\ length (trace s1) = 1.
Proof.
  destruct (missing_method_warned_once true demoName muteProviderFiber
              muteProviderFiber 10%positive 11%positive demoState
              plainInstance plainInstance)
    as (s1 & H1 & H2 & Htrace).
  - reflexivity.
  - reflexivity.
  - reflexivity.
  - reflexivity.
  - reflexivity.
  - exists s1. repeat split; [assumption..|]. rewrite Htrace. reflexivity.
Defined.

Lemma findCurrentUnmaskedContext_null_stateNode_witness :
  findCurrentUnmaskedContext demoMounted pendingButtonFiber demoState
  = (Throw TypeError, demoState).
Proof.
  apply (findCurrentUnmaskedContext_null_stateNode demoMounted
           pendingButtonFiber demoState [pendingButtonFiber]
           pendingProviderFiber [appFiber; hostRootFiber]).
  - reflexivity.
  - reflexivity.
  - reflexivity.
  - repeat constructor; discriminate.
  - right. reflexivity.
  - reflexivity.
Defined.

Lemma processChildContext_key_order_witness :
  exists merged s',
    processChildContext true demoName wideProviderFiber 10%positive demoState
    = (Ok merged, s')
    /\ keys (deref s' merged) = ["color"; "size"].
Proof.
  destruct (processChildContext_key_order true demoName wideProviderFiber
              10%positive demoState rogueInstance
              [("color", JsStr "red"); ("size", JsNum 3)] ["color"; "size"])
    as (merged & s' & H1 & Hkeys).
  - reflexivity.
  - reflexivity.
  - reflexivity.
  - vm_compute. repeat constructor.
  - vm_compute. repeat constructor; set_solver.
  - vm_compute. repeat constructor. by intros ?%elem_of_nil.
  - by apply (bool_decide_unpack _); vm_compute.
  - by apply (bool_decide_unpack _); vm_compute.
  - exists merged, s'. split; [assumption|]. rewrite Hkeys.
    vm_compute. reflexivity.
Defined.

Lemma diagnostics_do_not_steer_witness :
  observable (afterAll true demoName demoMounted demoVisit demoState)
  = observable
      (afterAll false (fun _ => None) demoMounted demoVisit demoState).
Proof.
  apply (diagnostics_do_not_steer true false demoName (fun _ => None)
           demoMounted demoVisit demoState demoState).
  reflexivity.
Defined.

Lemma results_same_in_production_witness :
  (getMaskedContext true demoName buttonFiber 11%positive demoState).1
  = (getMaskedContext false (fun _ => None) buttonFiber 11%positive
       demoState).1.
Proof.
  apply (proj1 (results_same_in_production true false demoName
                  (fun _ => None) buttonFiber 11%positive testFiber
                  10%positive demoState demoState eq_refl)).
Defined.
